(** * Quiz sheet parser: the [/upload/quiz] handler of [upload.py]

    A shallow embedding of [parse_quiz_excel] and of the Python and pandas
    operations it calls, followed by the properties of the handler.

    Conventions of the embedding.
    - A Python [str] is a [string], one [ascii] per code point; the model
      covers the code points below 256.
    - A dict literal is an association list in insertion order, a Python
      list is a [list].
    - [pd.read_excel] belongs to pandas: it is a variable of the section
      that holds the handler, from the uploaded bytes to either the text of
      the exception it raised or the frame it returned.
    - The frame returned by [pd.read_excel] has pairwise distinct column
      labels (pandas renames a repeated header) and the default
      [RangeIndex], so that the label of a row is its position. *)

From Stdlib Require Import String Ascii List Bool Arith ZArith Lia.
From Stdlib Require Import DecimalString.
Import ListNotations.
Open Scope string_scope.
Open Scope list_scope.
Open Scope nat_scope.

(** ** Python strings *)

Module Py.

(** [str.isspace] on one code point below 256: the C0 separators and
    controls 9-13 and 28-31, the space, NEL (133) and the no-break space
    (160). *)
Definition isspace (c : ascii) : bool :=
  let n := nat_of_ascii c in
  ((9 <=? n) && (n <=? 13)) || ((28 <=? n) && (n <=? 32))
  || (n =? 133) || (n =? 160).

(** [s.lstrip()] *)
Fixpoint lstrip (s : string) : string :=
  match s with
  | String c s' => if isspace c then lstrip s' else s
  | EmptyString => EmptyString
  end.

(** [s.rstrip()] *)
Fixpoint rstrip (s : string) : string :=
  match s with
  | String c s' =>
      match rstrip s' with
      | EmptyString => if isspace c then EmptyString else String c EmptyString
      | t => String c t
      end
  | EmptyString => EmptyString
  end.

(** [s.strip()] *)
Definition strip (s : string) : string := rstrip (lstrip s).

(** [str.lower] on one code point below 256: the letters A-Z and the
    Latin-1 capitals 192-222 (215, the multiplication sign, is not a
    letter) move up by 32. *)
Definition lower_char (c : ascii) : ascii :=
  let n := nat_of_ascii c in
  if ((65 <=? n) && (n <=? 90))
     || ((192 <=? n) && (n <=? 222) && negb (n =? 215))
  then ascii_of_nat (n + 32) else c.

(** [s.lower()] *)
Fixpoint lower (s : string) : string :=
  match s with
  | String c s' => String (lower_char c) (lower s')
  | EmptyString => EmptyString
  end.

(** The cut of [s] at the last occurrence of [sep], when there is one:
    the text before it and the text after it. *)
Fixpoint rpartition (sep : ascii) (s : string) : option (string * string) :=
  match s with
  | EmptyString => None
  | String c s' =>
      match rpartition sep s' with
      | Some (before, after) => Some (String c before, after)
      | None => if Ascii.eqb c sep then Some (EmptyString, s') else None
      end
  end.

(** [s.rsplit(sep, 1)] for a separator of one character: at most one
    split, made at the rightmost separator. *)
Definition rsplit1 (sep : ascii) (s : string) : list string :=
  match rpartition sep s with
  | Some (before, after) => [before; after]
  | None => [s]
  end.

(** [sep.join(parts)] *)
Definition join (sep : string) (parts : list string) : string :=
  String.concat sep parts.

(** [str(n)] for a non-negative [int]. *)
Definition str_nat (n : nat) : string :=
  NilZero.string_of_uint (Nat.to_uint n).

(** [str(z)] for an [int]. *)
Definition str_int (z : Z) : string :=
  NilZero.string_of_int (Z.to_int z).

(** [x in xs] for a list of strings. *)
Definition mem (x : string) (xs : list string) : bool :=
  existsb (String.eqb x) xs.

End Py.

(** ** JSON values built by the handler *)

#[warnings="-register-all"]
Inductive value : Type :=
  | VStr (s : string)
  | VBool (b : bool)
  | VInt (n : nat)
  | VList (l : list value)
  | VDict (d : list (string * value)).

(** A dict with string keys, in insertion order. *)
Definition dict : Type := list (string * value).

(** [d[key]]; [None] stands for [KeyError]. *)
Fixpoint getitem (key : string) (d : dict) : option value :=
  match d with
  | [] => None
  | (k, v) :: d' => if String.eqb k key then Some v else getitem key d'
  end.

(** Truth value of a Python object. *)
Definition truthy (v : value) : bool :=
  match v with
  | VStr s => negb (String.eqb s EmptyString)
  | VBool b => b
  | VInt n => negb (n =? 0)
  | VList l => match l with [] => false | _ => true end
  | VDict d => match d with [] => false | _ => true end
  end.

(** What the handler hands back to FastAPI: an explicit [JSONResponse]
    with its status code and body, or a plain dict (served with 200). *)
Inductive response : Type :=
  | JSONResponse (status_code : nat) (content : value)
  | Return (body : value).

Definition error_response (msg : string) : response :=
  JSONResponse 400 (VDict [("error", VStr msg)]).

(** ** The pandas frame *)

(** A cell as the handler observes it, through [pd.isna] and [str]. *)
Inductive cell : Type :=
  | NaN                         (* empty cell: NaN, None or NaT *)
  | Text (s : string)           (* a [str] *)
  | Int (z : Z)                 (* an integer *)
  | Scalar (rendering : string) (* another scalar (float, bool, Timestamp),
                                   with the text [str] gives for it *).

Definition isna (c : cell) : bool :=
  match c with NaN => true | _ => false end.

Definition str (c : cell) : string :=
  match c with
  | NaN => "nan"
  | Text s => s
  | Int z => Py.str_int z
  | Scalar r => r
  end.

Record DataFrame : Type := {
  columns : list string;
  data : list (list cell)   (* the rows, each aligned with [columns] *)
}.

(** A row as [iterrows] yields it: a Series indexed by the column labels. *)
Definition Series : Type := list (string * cell).

Definition series_of (cols : list string) (cells : list cell) : Series :=
  combine cols cells.

(** [row.get(label, default)] *)
Fixpoint get (row : Series) (label : string) (default : cell) : cell :=
  match row with
  | [] => default
  | (l, c) :: row' => if String.eqb l label then c else get row' label default
  end.

(** [df.iterrows()]: the rows with their index labels, counted from [start]. *)
Fixpoint iterrows_from (start : nat) (cols : list string) (rows : list (list cell))
  : list (nat * Series) :=
  match rows with
  | [] => []
  | r :: rows' => (start, series_of cols r) :: iterrows_from (S start) cols rows'
  end.

Definition iterrows (df : DataFrame) : list (nat * Series) :=
  iterrows_from 0 (columns df) (data df).

(** ** The handler *)

(** The uploaded file: the declared MIME type ([None] when the part
    carries none) and the bytes [file.read()] gives. *)
Record UploadFile : Type := {
  content_type : option string;
  contents : list Byte.byte
}.

(** Control flow of a loop body: go on with the loop state, or leave the
    handler through a [return]. *)
Inductive flow (A : Type) : Type :=
  | Next (a : A)
  | Exit (r : response).
Arguments Next {A} a.
Arguments Exit {A} r.

Definition allowed_types : list string :=
  [ "application/vnd.openxmlformats-officedocument.spreadsheetml.sheet";
    "application/vnd.ms-excel" ].

(** [row_num = index + 2], as the f-strings print it. *)
Definition row_num (index : nat) : string := Py.str_nat (index + 2).

(** Lines 95-110, the body of the inner [try]: the option built from a
    trimmed cell text, or the message of the [ValueError] raised. *)
Definition format_option (type option_text : string) : string + dict :=
  let parts := Py.rsplit1 "-"%char option_text in
  let value_parts := removelast parts in
  let extra := last parts EmptyString in
  let value := Py.strip (Py.join "-" value_parts) in
  let extra := Py.strip extra in
  if String.eqb value EmptyString || String.eqb extra EmptyString then
    inl "Empty value or property"
  else if String.eqb type "objective" then
    if negb (Py.mem (Py.lower extra) ["true"; "false"]) then
      inl "Property must be 'true' or 'false'"
    else
      inr [("text", VStr value);
           ("isCorrect", VBool (String.eqb (Py.lower extra) "true"))]
  else
    inr [("text", VStr value); ("tag", VStr extra)].

(** Lines 92-127: one non-empty option cell. *)
Definition option_of_cell (type : string) (require_option_format : bool)
    (index : nat) (col option_text : string) : flow dict :=
  if require_option_format then
    match format_option type option_text with
    | inr o => Next o
    | inl e =>
        Exit (error_response
                ("Invalid option format in row " ++ row_num index
                 ++ ", column '" ++ col ++ "': '" ++ option_text
                 ++ "'. Error: " ++ e))
    end
  else if String.eqb type "objective" then
    Next [("text", VStr option_text); ("isCorrect", VBool false)]
  else
    Next [("text", VStr option_text); ("tag", VStr col)].

(** Lines 82-127: [for col in df.columns], from the columns still to
    visit and the options appended so far. *)
Fixpoint options_loop (type : string) (require_option_format : bool)
    (index : nat) (row : Series) (cols : list string) (options : list dict)
  : flow (list dict) :=
  match cols with
  | [] => Next options
  | col :: cols' =>
      if String.eqb col "question" then
        options_loop type require_option_format index row cols' options
      else
        let option_raw := get row col NaN in
        if isna option_raw
           || String.eqb (Py.strip (str option_raw)) EmptyString then
          options_loop type require_option_format index row cols' options
        else
          let option_text := Py.strip (str option_raw) in
          match option_of_cell type require_option_format index col
                  option_text with
          | Next o =>
              options_loop type require_option_format index row cols'
                (options ++ [o])
          | Exit r => Exit r
          end
  end.

(** [any(option["isCorrect"] for option in options)]; [inl] carries the
    text of the [KeyError] of an option without that key. *)
Fixpoint any_isCorrect (options : list dict) : string + bool :=
  match options with
  | [] => inr false
  | option :: options' =>
      match getitem "isCorrect" option with
      | None => inl "'isCorrect'"
      | Some v => if truthy v then inr true else any_isCorrect options'
      end
  end.

(** Lines 74-149: the body of [for index, row in df.iterrows()], from the
    questions appended so far. *)
Definition row_body (type : string) (require_option_format : bool)
    (cols : list string) (index : nat) (row : Series) (questions : list value)
  : flow (list value) :=
  let raw_question := get row "question" (Text EmptyString) in
  if isna raw_question
     || String.eqb (Py.strip (str raw_question)) EmptyString then
    Next questions
  else
    let question_text := Py.strip (str raw_question) in
    match options_loop type require_option_format index row cols [] with
    | Exit r => Exit r
    | Next [] => Next questions
    | Next options =>
        let question :=
          VDict [("question", VStr question_text);
                 ("options", VList (map VDict options))] in
        if String.eqb type "objective" && require_option_format then
          match any_isCorrect options with
          | inl e =>
              Exit (error_response
                      ("Error processing row " ++ row_num index ++ ": " ++ e))
          | inr false =>
              Exit (error_response
                      ("Objective question in row " ++ row_num index
                       ++ " must have at least one correct answer."))
          | inr true => Next (questions ++ [question])
          end
        else Next (questions ++ [question])
    end.

(** Lines 73-149: the loop over the rows. *)
Fixpoint rows_loop (type : string) (require_option_format : bool)
    (cols : list string) (rows : list (nat * Series)) (questions : list value)
  : flow (list value) :=
  match rows with
  | [] => Next questions
  | (index, row) :: rows' =>
      match row_body type require_option_format cols index row questions with
      | Next questions' =>
          rows_loop type require_option_format cols rows' questions'
      | Exit r => Exit r
      end
  end.

Section Handler.

(** Lines 57-58, [pd.read_excel(io.BytesIO(contents))] under its [try]:
    the text of the exception, or the frame. *)
Variable read_excel : list Byte.byte -> string + DataFrame.

Definition parse_quiz_excel (file : UploadFile) (type : string)
    (require_option_format : bool) : response :=
  if negb (match content_type file with
           | Some t => Py.mem t allowed_types
           | None => false
           end) then
    error_response "Invalid file type. Only Excel files are allowed."
  else if negb (Py.mem type ["objective"; "tag-based"]) then
    error_response "Invalid quiz type. Must be 'objective' or 'tag'."
  else
    match read_excel (contents file) with
    | inl e => error_response ("Error reading Excel file: " ++ e)
    | inr df =>
        if negb (Py.mem "question" (columns df)) then
          error_response "Excel file must contain a 'question' column."
        else
          match rows_loop type require_option_format (columns df)
                  (iterrows df) [] with
          | Exit r => r
          | Next [] =>
              error_response "No valid questions found in the Excel file."
          | Next questions =>
              Return (VDict [("questions", VList questions);
                             ("count", VInt (length questions))])
          end
    end.

End Handler.

(** ** Sample requests *)

Definition xlsx : option string :=
  Some "application/vnd.openxmlformats-officedocument.spreadsheetml.sheet".

Definition upload (bytes : list Byte.byte) : UploadFile :=
  {| content_type := xlsx; contents := bytes |}.

(** A decoder that returns the frame [df] whatever the bytes. *)
Definition reads (df : DataFrame) : list Byte.byte -> string + DataFrame :=
  fun _ => inr df.

Definition sheet_2plus2 : DataFrame :=
  {| columns := ["question"; "opt1"];
     data := [[Text "What is 2+2?"; Text "4-true"]] |}.

Definition sheet_urgent : DataFrame :=
  {| columns := ["question"; "topic"];
     data := [[Text "Which one?"; Text "urgent-math-tag"]] |}.

Definition sheet_plain : DataFrame :=
  {| columns := ["question"; "opt1"; "opt2"];
     data := [[Text "What is 2+2?"; Text "4-true"; Text "5-false"];
              [Text "Capital of France?"; Text "Paris-true"; Text "plainoption"];
              [Text "Never read"; Text "x-true"; NaN]] |}.

Definition sheet_no_correct : DataFrame :=
  {| columns := ["question"; "opt1"; "opt2"];
     data := [[Text "What is 1+1?"; Text "2-true"; NaN];
              [Text "What is 2+2?"; Text "4-false"; Text "5-false"];
              [Text "Never read"; Text "oops"; NaN]] |}.

Definition sheet_paris : DataFrame :=
  {| columns := ["question"; "opt1"; "opt2"];
     data := [[Text "Capital of France?"; Text "Paris"; Text " Lyon "]] |}.

Definition sheet_no_question : DataFrame :=
  {| columns := ["prompt"; "opt1"];
     data := [[Text "What is 2+2?"; Text "plainoption"]] |}.

Definition sheet_blank : DataFrame :=
  {| columns := ["question"; "opt1"];
     data := [[NaN; Text "no hyphen here"];
              [Text "  "; Text "4-true"];
              [Text "Orphan question"; Text "   "]] |}.

Definition sheet_yes : DataFrame :=
  {| columns := ["opt1"; "question"; "opt2"];
     data := [[Text "4-true"; Text "What is 2+2?"; Text "5-false"];
              [Text "Paris-true"; Text "Capital of France?"; Text "Lyon-yes"];
              [Text "never read"; Text "plain"; Text "plain"]] |}.

(** ** Vocabulary of the statements *)

(** The test of lines 76 and 87: the cell is missing, or its text is empty
    once trimmed. *)
Definition blank (c : cell) : bool :=
  isna c || String.eqb (Py.strip (str c)) EmptyString.

(** The upload declares one of the two Excel MIME types. *)
Definition excel_upload (file : UploadFile) : Prop :=
  exists t, content_type file = Some t /\ In t allowed_types.

Definition quiz_type (type : string) : Prop :=
  type = "objective" \/ type = "tag-based".

(** The text has no hyphen. *)
Definition hyphen_free (s : string) : Prop :=
  forall c, In c (list_ascii_of_string s) -> c <> "-"%char.

(** Every character of the text is a white space. *)
Definition whitespace_only (s : string) : Prop :=
  forall c, In c (list_ascii_of_string s) -> Py.isspace c = true.

(** The question dict of line 142. *)
Definition question_dict (text : string) (options : list dict) : value :=
  VDict [("question", VStr text); ("options", VList (map VDict options))].

(** The body of line 157. *)
Definition parsed (questions : list value) : response :=
  Return (VDict [("questions", VList questions);
                 ("count", VInt (length questions))]).

Definition objective_option (text : string) (isCorrect : bool) : dict :=
  [("text", VStr text); ("isCorrect", VBool isCorrect)].

Definition tag_option (text tag : string) : dict :=
  [("text", VStr text); ("tag", VStr tag)].

Definition objective_shape (o : dict) : Prop :=
  exists (text : string) (isCorrect : bool), o = objective_option text isCorrect.

(** A question as line 142 appends it, with at least one option. *)
Definition emitted_question (q : value) : Prop :=
  exists (text : string) (o : dict) (options : list dict),
    q = VDict [("question", VStr text);
               ("options", VList (VDict o :: map VDict options))].

(** The three errors a row can end the request with: lines 117, 138
    and 148. *)
Definition row_error (r : response) : Prop :=
  exists rest : string,
    r = error_response ("Invalid option format in row " ++ rest)
    \/ r = error_response ("Objective question in row " ++ rest)
    \/ r = error_response ("Error processing row " ++ rest).

(** The columns of a row that give an option: every column but
    [question] whose cell is not blank. *)
Definition option_cols (row : Series) (cols : list string) : list string :=
  filter (fun col => negb (String.eqb col "question")
                     && negb (blank (get row col NaN))) cols.

(** A question of the lenient objective path: at least one option, none
    marked correct. *)
Definition unmarked_question (q : value) : Prop :=
  exists (text : string) (options : list dict),
    q = question_dict text options
    /\ options <> []
    /\ Forall (fun o => exists t, o = objective_option t false) options.

Ltac no_hyphen :=
  let c := fresh "c" in
  let H := fresh "H" in
  intros c H; simpl in H;
  repeat (destruct H as [<- | H]; [discriminate |]); contradiction.

(** A row that gives a question, if no cell of it ends the request: its
    question is not blank and it has a non-blank option cell. *)
Definition usable (cols : list string) (cells : list cell) : bool :=
  let row := series_of cols cells in
  negb (blank (get row "question" (Text EmptyString)))
  && match option_cols row cols with [] => false | _ => true end.

(** The text has no white space at either end. *)
Definition trimmed (s : string) : Prop := Py.strip s = s.

(** The text is empty or starts with a character that is not a white
    space. *)
Definition starts_nonspace (s : string) : Prop :=
  match s with
  | EmptyString => True
  | String c _ => Py.isspace c = false
  end.

(** An option stored with a non-empty, trimmed text. *)
Definition option_with_text (o : dict) : Prop :=
  exists t : string,
    getitem "text" o = Some (VStr t) /\ t <> EmptyString /\ trimmed t.

(** The option marks itself correct. *)
Definition marked_correct (o : dict) : bool :=
  match getitem "isCorrect" o with
  | Some (VBool true) => true
  | _ => false
  end.

(** The option of a non-blank cell on the lenient path (lines 122-127),
    as a function of the row and the column. *)
Definition lenient_option (type : string) (row : Series) (col : string)
  : dict :=
  let option_text := Py.strip (str (get row col NaN)) in
  if String.eqb type "objective" then objective_option option_text false
  else tag_option option_text col.

(** The questions of the lenient path, as a map over the usable rows. *)
Definition lenient_questions (type : string) (cols : list string)
    (rows : list (list cell)) : list value :=
  flat_map
    (fun cells =>
       let row := series_of cols cells in
       if usable cols cells then
         [question_dict
            (Py.strip (str (get row "question" (Text EmptyString))))
            (map (lenient_option type row) (option_cols row cols))]
       else [])
    rows.

(** The format error of line 117. *)
Definition format_error (index : nat) (col option_text e : string)
  : response :=
  error_response
    ("Invalid option format in row " ++ Py.str_nat (index + 2)
     ++ ", column '" ++ col ++ "': '" ++ option_text ++ "'. Error: " ++ e).

(** A question and the row it comes from: the trimmed text of the
    [question] cell, and one option for each non-blank option cell. *)
Definition question_of_row (cols : list string) (q : value)
    (cells : list cell) : Prop :=
  let row := series_of cols cells in
  exists options : list dict,
    q = question_dict
          (Py.strip (str (get row "question" (Text EmptyString)))) options
    /\ length options = length (option_cols row cols).

(** The errors a row does end the request with: the format error and the
    missing correct answer. *)
Definition cell_or_answer_error (r : response) : Prop :=
  exists rest : string,
    r = error_response ("Invalid option format in row " ++ rest)
    \/ r = error_response ("Objective question in row " ++ rest).

(** The missing correct answer of line 138. *)
Definition answer_error (index : nat) : response :=
  error_response
    ("Objective question in row " ++ Py.str_nat (index + 2)
     ++ " must have at least one correct answer.").

(** ** Auxiliary facts *)

Lemma mem_In (x : string) (xs : list string) :
  Py.mem x xs = true <-> In x xs.
Proof.
  unfold Py.mem. rewrite existsb_exists. split.
  - intros (y & Hy & E). apply String.eqb_eq in E. now subst.
  - intros H. exists x. split; [assumption | apply String.eqb_refl].
Qed.

Lemma mem_not_In (x : string) (xs : list string) :
  Py.mem x xs = false <-> ~ In x xs.
Proof.
  rewrite <- mem_In. destruct (Py.mem x xs); split; congruence.
Qed.

Lemma excel_upload_guard (file : UploadFile) :
  excel_upload file ->
  match content_type file with
  | Some t => Py.mem t allowed_types
  | None => false
  end = true.
Proof.
  intros (t & E & H). rewrite E. now apply mem_In.
Qed.

Lemma quiz_type_guard (type : string) :
  quiz_type type -> Py.mem type ["objective"; "tag-based"] = true.
Proof.
  intros [-> | ->]; reflexivity.
Qed.

Lemma xlsx_upload (bytes : list Byte.byte) : excel_upload (upload bytes).
Proof.
  exists "application/vnd.openxmlformats-officedocument.spreadsheetml.sheet"%string.
  split; [reflexivity | simpl; auto].
Qed.

Lemma iterrows_from_app (start : nat) (cols : list string)
    (before after : list (list cell)) :
  iterrows_from start cols (before ++ after) =
  iterrows_from start cols before
  ++ iterrows_from (start + length before) cols after.
Proof.
  revert start. induction before as [| r before IH]; intros start; simpl.
  - now rewrite Nat.add_0_r.
  - rewrite IH. now rewrite Nat.add_succ_comm.
Qed.

Lemma In_iterrows_from (start : nat) (cols : list string)
    (rows : list (list cell)) (cells : list cell) :
  In cells rows ->
  exists before after,
    iterrows_from start cols rows
    = iterrows_from start cols before
      ++ (start + length before, series_of cols cells)
         :: iterrows_from (S (start + length before)) cols after.
Proof.
  intros H. apply in_split in H as (before & after & ->).
  exists before, after. rewrite iterrows_from_app. reflexivity.
Qed.

Lemma rows_loop_app (type : string) (rof : bool) (cols : list string)
    (before after : list (nat * Series)) (questions : list value) :
  rows_loop type rof cols (before ++ after) questions =
  match rows_loop type rof cols before questions with
  | Next questions' => rows_loop type rof cols after questions'
  | Exit r => Exit r
  end.
Proof.
  revert questions.
  induction before as [| [index row] before IH]; intros questions; simpl.
  - reflexivity.
  - destruct (row_body type rof cols index row questions); [apply IH | reflexivity].
Qed.

Lemma options_loop_app (type : string) (rof : bool) (index : nat)
    (row : Series) (before after : list string) (options : list dict) :
  options_loop type rof index row (before ++ after) options =
  match options_loop type rof index row before options with
  | Next options' => options_loop type rof index row after options'
  | Exit r => Exit r
  end.
Proof.
  revert options.
  induction before as [| col before IH]; intros options; simpl.
  - reflexivity.
  - destruct (String.eqb col "question"); [apply IH |].
    destruct (isna (get row col NaN)
              || String.eqb (Py.strip (str (get row col NaN))) EmptyString);
      [apply IH |].
    destruct (option_of_cell type rof index col
                (Py.strip (str (get row col NaN)))); [apply IH | reflexivity].
Qed.

(** The handler once its three guards are passed and the frame is read. *)
Lemma parse_quiz_excel_rows (read_excel : list Byte.byte -> string + DataFrame)
    (file : UploadFile) (type : string) (rof : bool) (df : DataFrame) :
  excel_upload file -> quiz_type type ->
  read_excel (contents file) = inr df ->
  In "question" (columns df) ->
  parse_quiz_excel read_excel file type rof =
  match rows_loop type rof (columns df) (iterrows df) [] with
  | Exit r => r
  | Next [] => error_response "No valid questions found in the Excel file."
  | Next questions => parsed questions
  end.
Proof.
  intros Hfile Htype Hread Hcol. unfold parse_quiz_excel.
  rewrite (excel_upload_guard _ Hfile), (quiz_type_guard _ Htype), Hread.
  apply mem_In in Hcol. rewrite Hcol. reflexivity.
Qed.

(** ** Trimming *)

Lemma lstrip_whitespace_only (s : string) :
  whitespace_only s -> Py.lstrip s = EmptyString.
Proof.
  induction s as [| c s IH]; intros H; simpl.
  - reflexivity.
  - rewrite (H c) by (simpl; auto). apply IH.
    intros d Hd. apply H. simpl; auto.
Qed.

Lemma whitespace_only_lstrip (s : string) :
  whitespace_only (Py.lstrip s) -> whitespace_only s.
Proof.
  induction s as [| c s IH]; simpl.
  - intros H; exact H.
  - destruct (Py.isspace c) eqn:E; [| intros H; exact H].
    intros H d [<- | Hd]; [exact E | exact (IH H d Hd)].
Qed.

Lemma whitespace_only_rstrip (s : string) :
  Py.rstrip s = EmptyString -> whitespace_only s.
Proof.
  induction s as [| c s IH]; simpl.
  - intros _ d [].
  - destruct (Py.rstrip s) eqn:E; [| discriminate].
    destruct (Py.isspace c) eqn:Ec; [| discriminate].
    intros _ d [<- | Hd]; [exact Ec | exact (IH eq_refl d Hd)].
Qed.

(** A text is empty once trimmed exactly when it holds white space only. *)
Lemma strip_whitespace_only (s : string) :
  Py.strip s = EmptyString <-> whitespace_only s.
Proof.
  unfold Py.strip. split.
  - intros H. apply whitespace_only_lstrip, whitespace_only_rstrip, H.
  - intros H. rewrite (lstrip_whitespace_only s H). reflexivity.
Qed.

(** ** Splitting at the last hyphen *)

Lemma rpartition_none (sep : ascii) (s : string) :
  (forall c, In c (list_ascii_of_string s) -> c <> sep) ->
  Py.rpartition sep s = None.
Proof.
  induction s as [| c s IH]; intros H; simpl.
  - reflexivity.
  - rewrite IH by (intros d Hd; apply H; simpl; auto).
    destruct (Ascii.eqb_spec c sep) as [E | _]; [| reflexivity].
    exfalso. apply (H c); simpl; auto.
Qed.

Lemma rpartition_last (sep : ascii) (v e : string) :
  (forall c, In c (list_ascii_of_string e) -> c <> sep) ->
  Py.rpartition sep (v ++ String sep e)%string = Some (v, e).
Proof.
  intros H. induction v as [| c v IH]; simpl.
  - rewrite (rpartition_none _ _ H), Ascii.eqb_refl. reflexivity.
  - rewrite IH. reflexivity.
Qed.

Lemma rsplit1_none (s : string) :
  hyphen_free s -> Py.rsplit1 "-"%char s = [s].
Proof.
  intros H. unfold Py.rsplit1. now rewrite rpartition_none.
Qed.

Lemma rsplit1_last (v e : string) :
  hyphen_free e -> Py.rsplit1 "-"%char (v ++ "-" ++ e)%string = [v; e].
Proof.
  intros H. unfold Py.rsplit1. simpl. now rewrite rpartition_last.
Qed.

(** [format_option] on a text cut at its last hyphen: the two parts are
    the text before it and the text after it. *)
Lemma format_option_last_hyphen (type v e : string) :
  hyphen_free e ->
  format_option type (v ++ "-" ++ e) =
  let value := Py.strip v in
  let extra := Py.strip e in
  if String.eqb value EmptyString || String.eqb extra EmptyString then
    inl "Empty value or property"%string
  else if String.eqb type "objective" then
    if negb (Py.mem (Py.lower extra) ["true"; "false"]%string) then
      inl "Property must be 'true' or 'false'"%string
    else inr (objective_option value (String.eqb (Py.lower extra) "true"))
  else inr (tag_option value extra).
Proof.
  intros H. unfold format_option. rewrite (rsplit1_last v e H). reflexivity.
Qed.

Lemma format_option_no_hyphen (type s : string) :
  hyphen_free s ->
  format_option type s = inl "Empty value or property"%string.
Proof.
  intros H. unfold format_option. rewrite (rsplit1_none s H). reflexivity.
Qed.

Lemma hyphen_free_tag : hyphen_free "tag".
Proof.
  intros c H. simpl in H.
  repeat (destruct H as [<- | H]; [discriminate |]). contradiction.
Qed.

Lemma hyphen_free_plainoption : hyphen_free "plainoption".
Proof. no_hyphen. Qed.

Lemma hyphen_free_true : hyphen_free " true".
Proof. no_hyphen. Qed.

(** ** Reaching a row, reaching a cell *)

(** The loop over the rows, when the rows before one of them are all
    processed without leaving the handler. *)
Lemma rows_loop_reach (type : string) (rof : bool) (cols : list string)
    (before after : list (list cell)) (cells : list cell)
    (questions : list value) :
  rows_loop type rof cols (iterrows_from 0 cols before) [] = Next questions ->
  rows_loop type rof cols
    (iterrows_from 0 cols (before ++ cells :: after)) []
  = match row_body type rof cols (length before) (series_of cols cells)
            questions with
    | Next questions' =>
        rows_loop type rof cols
          (iterrows_from (S (length before)) cols after) questions'
    | Exit r => Exit r
    end.
Proof.
  intros H. rewrite iterrows_from_app, rows_loop_app, H. reflexivity.
Qed.

Lemma row_body_blank (type : string) (rof : bool) (cols : list string)
    (index : nat) (row : Series) (questions : list value) :
  blank (get row "question" (Text EmptyString)) = true ->
  row_body type rof cols index row questions = Next questions.
Proof.
  intros H. unfold row_body. unfold blank in H. rewrite H. reflexivity.
Qed.

Lemma row_body_options (type : string) (rof : bool) (cols : list string)
    (index : nat) (row : Series) (questions : list value) :
  blank (get row "question" (Text EmptyString)) = false ->
  row_body type rof cols index row questions =
  match options_loop type rof index row cols [] with
  | Exit r => Exit r
  | Next [] => Next questions
  | Next options =>
      let question :=
        question_dict
          (Py.strip (str (get row "question" (Text EmptyString)))) options in
      if String.eqb type "objective" && rof then
        match any_isCorrect options with
        | inl e =>
            Exit (error_response
                    ("Error processing row " ++ row_num index ++ ": " ++ e))
        | inr false =>
            Exit (error_response
                    ("Objective question in row " ++ row_num index
                     ++ " must have at least one correct answer."))
        | inr true => Next (questions ++ [question])
        end
      else Next (questions ++ [question])
  end.
Proof.
  intros H. unfold row_body. unfold blank in H. rewrite H. reflexivity.
Qed.

Lemma options_loop_cell (type : string) (rof : bool) (index : nat)
    (row : Series) (col : string) (cols : list string) (options : list dict) :
  col <> "question"%string ->
  blank (get row col NaN) = false ->
  options_loop type rof index row (col :: cols) options =
  match option_of_cell type rof index col
          (Py.strip (str (get row col NaN))) with
  | Next o => options_loop type rof index row cols (options ++ [o])
  | Exit r => Exit r
  end.
Proof.
  intros Hcol H. simpl. apply String.eqb_neq in Hcol. rewrite Hcol.
  unfold blank in H. rewrite H. reflexivity.
Qed.

(** ** Objective options *)

Lemma option_of_cell_objective (rof : bool) (index : nat)
    (col option_text : string) (o : dict) :
  option_of_cell "objective" rof index col option_text = Next o ->
  objective_shape o.
Proof.
  unfold option_of_cell, format_option. destruct rof; simpl.
  - destruct (_ || _); [discriminate |].
    destruct (negb _); [discriminate |].
    intros H. injection H as <-. eexists _, _. reflexivity.
  - intros H. injection H as <-. eexists _, _. reflexivity.
Qed.

Lemma options_loop_objective (rof : bool) (index : nat) (row : Series)
    (cols : list string) (options options' : list dict) :
  Forall objective_shape options ->
  options_loop "objective" rof index row cols options = Next options' ->
  Forall objective_shape options'.
Proof.
  revert options. induction cols as [| col cols IH]; intros options Hshape; simpl.
  - intros H. injection H as <-. assumption.
  - destruct (String.eqb col "question"); [now apply IH |].
    destruct (_ || _); [now apply IH |].
    destruct (option_of_cell "objective" rof index col _) as [o | r] eqn:E;
      [| discriminate].
    apply IH. apply Forall_app. split; [assumption |].
    constructor; [| constructor]. exact (option_of_cell_objective _ _ _ _ _ E).
Qed.

Lemma any_isCorrect_none (options : list dict) :
  Forall objective_shape options ->
  (forall o, In o options -> getitem "isCorrect" o <> Some (VBool true)) ->
  any_isCorrect options = inr false.
Proof.
  induction 1 as [| o options (text & b & ->) _ IH]; intros Hnone; simpl.
  - reflexivity.
  - destruct b.
    + exfalso. apply (Hnone (objective_option text true)); simpl; auto.
    + apply IH. intros o Ho. apply Hnone. simpl; auto.
Qed.

(** ** What the loops can hand back *)

Lemma options_loop_exit (type : string) (rof : bool) (index : nat)
    (row : Series) (cols : list string) (options : list dict) (r : response) :
  options_loop type rof index row cols options = Exit r -> row_error r.
Proof.
  revert options. induction cols as [| col cols IH]; intros options; simpl.
  - discriminate.
  - destruct (String.eqb col "question"); [apply IH |].
    destruct (_ || _); [apply IH |].
    unfold option_of_cell.
    destruct rof.
    + destruct (format_option type _) as [e | o]; [| apply IH].
      intros H. injection H as <-. eexists. left. reflexivity.
    + destruct (String.eqb type "objective"); apply IH.
Qed.

Lemma row_body_exit (type : string) (rof : bool) (cols : list string)
    (index : nat) (row : Series) (questions : list value) (r : response) :
  row_body type rof cols index row questions = Exit r -> row_error r.
Proof.
  unfold row_body. destruct (_ || _); [discriminate |].
  destruct (options_loop type rof index row cols []) as [[| o options] | r']
    eqn:E.
  - discriminate.
  - destruct (String.eqb type "objective" && rof); [| discriminate].
    destruct (any_isCorrect (o :: options)) as [e | [|]]; try discriminate;
      intros H; injection H as <-; eexists;
      [right; right; reflexivity | right; left; reflexivity].
  - intros H. injection H as <-. exact (options_loop_exit _ _ _ _ _ _ _ E).
Qed.

Lemma row_body_next (type : string) (rof : bool) (cols : list string)
    (index : nat) (row : Series) (questions questions' : list value) :
  row_body type rof cols index row questions = Next questions' ->
  questions' = questions
  \/ exists q, emitted_question q /\ questions' = questions ++ [q].
Proof.
  unfold row_body. destruct (_ || _).
  { intros H. injection H as <-. now left. }
  destruct (options_loop type rof index row cols []) as [[| o options] | r'].
  - intros H. injection H as <-. now left.
  - assert (Hq : emitted_question
                   (VDict
                      [("question",
                        VStr (Py.strip
                                (str (get row "question" (Text EmptyString)))));
                       ("options", VList (map VDict (o :: options)))]))
      by (eexists _, _, _; reflexivity).
    destruct (String.eqb type "objective" && rof).
    + destruct (any_isCorrect (o :: options)) as [e | [|]]; try discriminate.
      intros H. injection H as <-. right. eexists. split; [exact Hq | reflexivity].
    + intros H. injection H as <-. right. eexists. split; [exact Hq | reflexivity].
  - discriminate.
Qed.

Lemma rows_loop_exit (type : string) (rof : bool) (cols : list string)
    (rows : list (nat * Series)) (questions : list value) (r : response) :
  rows_loop type rof cols rows questions = Exit r -> row_error r.
Proof.
  revert questions.
  induction rows as [| [index row] rows IH]; intros questions; simpl.
  - discriminate.
  - destruct (row_body type rof cols index row questions) as [questions' | r']
      eqn:E; [apply IH |].
    intros H. injection H as <-. exact (row_body_exit _ _ _ _ _ _ _ E).
Qed.

Lemma rows_loop_next (type : string) (rof : bool) (cols : list string)
    (rows : list (nat * Series)) (questions questions' : list value) :
  Forall emitted_question questions ->
  rows_loop type rof cols rows questions = Next questions' ->
  Forall emitted_question questions'.
Proof.
  revert questions.
  induction rows as [| [index row] rows IH]; intros questions Hall; simpl.
  - intros H. injection H as <-. assumption.
  - destruct (row_body type rof cols index row questions) as [questions1 | r']
      eqn:E; [| discriminate].
    apply IH.
    destruct (row_body_next _ _ _ _ _ _ _ E) as [-> | (q & Hq & ->)];
      [assumption |].
    apply Forall_app. split; [assumption | now constructor].
Qed.

Lemma row_error_not_quiz_type (r : response) :
  row_error r ->
  r <> error_response "Invalid quiz type. Must be 'objective' or 'tag'.".
Proof.
  intros (rest & [-> | [-> | ->]]); discriminate.
Qed.

(** ** The lenient path *)

Lemma options_loop_lenient_objective (index : nat) (row : Series)
    (cols : list string) (options : list dict) :
  options_loop "objective" false index row cols options
  = Next (options
          ++ map (fun col =>
                    objective_option (Py.strip (str (get row col NaN))) false)
               (option_cols row cols)).
Proof.
  revert options. induction cols as [| col cols IH]; intros options; simpl.
  - now rewrite app_nil_r.
  - destruct (String.eqb col "question"); simpl; [apply IH |].
    fold (blank (get row col NaN)).
    destruct (blank (get row col NaN)); simpl; [apply IH |].
    rewrite IH, <- app_assoc. reflexivity.
Qed.

Lemma row_body_lenient_objective (cols : list string) (index : nat)
    (row : Series) (questions : list value) :
  exists extra : list value,
    row_body "objective" false cols index row questions
    = Next (questions ++ extra)
    /\ Forall unmarked_question extra
    /\ (blank (get row "question" (Text EmptyString)) = false ->
        option_cols row cols <> [] -> extra <> []).
Proof.
  destruct (blank (get row "question" (Text EmptyString))) eqn:Hq.
  - exists []. rewrite (row_body_blank _ _ _ _ _ _ Hq), app_nil_r.
    repeat split; [constructor | discriminate].
  - rewrite (row_body_options _ _ _ _ _ _ Hq).
    rewrite options_loop_lenient_objective. simpl.
    destruct (option_cols row cols) as [| col cols'] eqn:E; simpl.
    + exists []. rewrite app_nil_r. repeat split; [constructor | congruence].
    + eexists [_]. split; [reflexivity |]. split; [| discriminate].
      constructor; [| constructor].
      eexists _, (_ :: _). split; [reflexivity |]. split; [discriminate |].
      constructor; [eexists; reflexivity |].
      apply Forall_map, Forall_forall. intros c _. eexists; reflexivity.
Qed.

Lemma rows_loop_lenient_objective (cols : list string)
    (rows : list (nat * Series)) (questions : list value) :
  exists extra : list value,
    rows_loop "objective" false cols rows questions = Next (questions ++ extra)
    /\ Forall unmarked_question extra.
Proof.
  revert questions.
  induction rows as [| [index row] rows IH]; intros questions; simpl.
  - exists []. rewrite app_nil_r. split; [reflexivity | constructor].
  - destruct (row_body_lenient_objective cols index row questions)
      as (extra1 & -> & H1 & _).
    destruct (IH (questions ++ extra1)) as (extra2 & -> & H2).
    exists (extra1 ++ extra2). rewrite app_assoc. split; [reflexivity |].
    apply Forall_app. now split.
Qed.

(** ** C1: the sample sheet *)

(** C1, as the specification words it, fails: the dict of a question
    stores the question text under the key [question], and has no key
    [text]. *)
Lemma two_plus_two_key_is_not_text :
  parse_quiz_excel (reads sheet_2plus2) (upload []) "objective" true
  <> Return
       (VDict
          [("questions",
            VList
              [VDict
                 [("text", VStr "What is 2+2?");
                  ("options",
                   VList
                     [VDict [("text", VStr "4"); ("isCorrect", VBool true)]])]]);
           ("count", VInt 1)]).
Proof.
  vm_compute. intros H. discriminate H.
Qed.

(** C1 (amended): for the table with columns [question] and [opt1] and the
    single row ["What is 2+2?", "4-true"], parsed as an objective quiz with
    [require_option_format] set, the handler returns one question, whose
    text is under the key [question] and whose options are
    [{text: "4", isCorrect: true}], and the count 1. *)
Theorem two_plus_two_parsed :
  forall (read_excel : list Byte.byte -> string + DataFrame)
         (file : UploadFile),
    excel_upload file ->
    read_excel (contents file) = inr sheet_2plus2 ->
    parse_quiz_excel read_excel file "objective" true
    = Return
        (VDict
           [("questions",
             VList
               [VDict
                  [("question", VStr "What is 2+2?");
                   ("options",
                    VList
                      [VDict [("text", VStr "4"); ("isCorrect", VBool true)]])]]);
            ("count", VInt 1)]).
Proof.
  intros read_excel file Hfile Hread.
  rewrite (parse_quiz_excel_rows read_excel file "objective" true sheet_2plus2);
    try assumption.
  - reflexivity.
  - now left.
  - simpl. auto.
Qed.

Lemma two_plus_two_parsed_witness :
  excel_upload (upload [])
  /\ reads sheet_2plus2 (contents (upload [])) = inr sheet_2plus2
  /\ parse_quiz_excel (reads sheet_2plus2) (upload []) "objective" true
     = parsed [question_dict "What is 2+2?" [objective_option "4" true]].
Proof.
  split; [apply xlsx_upload |]. split; [reflexivity |].
  apply (two_plus_two_parsed (reads sheet_2plus2) (upload []));
    [apply xlsx_upload | reflexivity].
Defined.

(** ** C2: a strict objective row without a correct answer *)

(** C2: for the quiz type [objective] with [require_option_format] set,
    when the handler reaches a row with a non-empty question text whose
    cells give a non-empty list of options none of which has
    [isCorrect = true], the whole request fails with the error that names
    the row number index + 2; the rows after it are not parsed (they do
    not change the answer) and the questions of the rows before it are
    not returned. *)
Theorem strict_objective_row_needs_correct_answer :
  forall (read_excel : list Byte.byte -> string + DataFrame)
         (file : UploadFile) (df : DataFrame)
         (before after : list (list cell)) (cells : list cell)
         (questions : list value) (options : list dict),
    excel_upload file ->
    read_excel (contents file) = inr df ->
    In "question"%string (columns df) ->
    data df = before ++ cells :: after ->
    let index := length before in
    let row := series_of (columns df) cells in
    rows_loop "objective" true (columns df)
      (iterrows_from 0 (columns df) before) [] = Next questions ->
    blank (get row "question" (Text EmptyString)) = false ->
    options_loop "objective" true index row (columns df) [] = Next options ->
    options <> [] ->
    (forall o, In o options -> getitem "isCorrect" o <> Some (VBool true)) ->
    parse_quiz_excel read_excel file "objective" true
    = JSONResponse 400
        (VDict
           [("error",
             VStr ("Objective question in row " ++ Py.str_nat (index + 2)
                   ++ " must have at least one correct answer."))]).
Proof.
  intros read_excel file df before after cells questions options
    Hfile Hread Hq Hdata index row Hbefore Hquestion Hoptions Hne Hnone.
  rewrite (parse_quiz_excel_rows read_excel file "objective" true df);
    [| assumption | now left | assumption | assumption].
  unfold iterrows. rewrite Hdata.
  rewrite (rows_loop_reach _ _ _ _ _ _ _ Hbefore).
  fold index. fold row.
  rewrite (row_body_options _ _ _ _ _ _ Hquestion), Hoptions.
  destruct options as [| o options]; [contradiction |].
  rewrite any_isCorrect_none.
  - reflexivity.
  - exact (options_loop_objective _ _ _ _ _ _ (Forall_nil _) Hoptions).
  - assumption.
Qed.

Lemma strict_objective_row_needs_correct_answer_witness :
  options_loop "objective" true 1
    (series_of (columns sheet_no_correct)
       [Text "What is 2+2?"; Text "4-false"; Text "5-false"])
    (columns sheet_no_correct) []
  = Next [objective_option "4" false; objective_option "5" false]
  /\ parse_quiz_excel (reads sheet_no_correct) (upload []) "objective" true
     = error_response
         "Objective question in row 3 must have at least one correct answer.".
Proof.
  split; [reflexivity |].
  apply (strict_objective_row_needs_correct_answer
           (reads sheet_no_correct) (upload []) sheet_no_correct
           [[Text "What is 1+1?"; Text "2-true"; NaN]]
           [[Text "Never read"; Text "oops"; NaN]]
           [Text "What is 2+2?"; Text "4-false"; Text "5-false"]
           [question_dict "What is 1+1?" [objective_option "2" true]]
           [objective_option "4" false; objective_option "5" false]).
  - apply xlsx_upload.
  - reflexivity.
  - simpl; auto.
  - reflexivity.
  - reflexivity.
  - reflexivity.
  - reflexivity.
  - discriminate.
  - intros o [<- | [<- | []]]; discriminate.
Defined.

(** ** C3: the shape of a successful answer *)

(** C3: whenever the handler answers with its success body, that body is
    [{questions, count}] with [count] the length of [questions], and every
    question in it carries a non-empty list of options: a row whose list
    of options stays empty is never emitted. *)
Theorem parsed_count_and_options :
  forall (read_excel : list Byte.byte -> string + DataFrame)
         (file : UploadFile) (type : string) (require_option_format : bool)
         (body : value),
    parse_quiz_excel read_excel file type require_option_format = Return body ->
    exists questions : list value,
      body = VDict [("questions", VList questions);
                    ("count", VInt (length questions))]
      /\ Forall
           (fun q =>
              exists (text : string) (o : dict) (options : list dict),
                q = VDict [("question", VStr text);
                           ("options", VList (VDict o :: map VDict options))])
           questions.
Proof.
  intros read_excel file type rof body. unfold parse_quiz_excel.
  destruct (negb _); [discriminate |].
  destruct (negb _); [discriminate |].
  destruct (read_excel (contents file)) as [e | df]; [discriminate |].
  destruct (negb _); [discriminate |].
  destruct (rows_loop type rof (columns df) (iterrows df) [])
    as [[| q questions] | r] eqn:E.
  - discriminate.
  - intros H. injection H as <-. exists (q :: questions).
    split; [reflexivity |].
    exact (rows_loop_next _ _ _ _ _ _ (Forall_nil _) E).
  - intros ->.
    destruct (rows_loop_exit _ _ _ _ _ _ E) as (rest & [H | [H | H]]);
      discriminate H.
Qed.

Lemma parsed_count_and_options_witness :
  exists questions : list value,
    parse_quiz_excel (reads sheet_paris) (upload []) "tag-based" false
    = parsed questions
    /\ Forall emitted_question questions.
Proof.
  destruct (parsed_count_and_options
              (reads sheet_paris) (upload []) "tag-based" false
              (VDict
                 [("questions",
                   VList
                     [question_dict "Capital of France?"
                        [tag_option "Paris" "opt1"; tag_option "Lyon" "opt2"]]);
                  ("count", VInt 1)])
              eq_refl) as (questions & Hbody & Hall).
  exists questions. split; [| exact Hall].
  unfold parsed. rewrite <- Hbody. reflexivity.
Defined.

(** ** C4: strict cells are cut at the last hyphen *)

(** C4: with [require_option_format] set, the text of a cell is cut at its
    last hyphen, so the value may hold hyphens: a text [v-e] in which [e]
    has no hyphen splits into [v] and [e], and for the quiz type
    [tag-based] it gives the option [{text: v, tag: e}] (both trimmed);
    the cell [urgent-math-tag] gives [{text: "urgent-math", tag: "tag"}],
    also through the whole handler. *)
Theorem strict_cell_cut_at_last_hyphen :
  (forall v e : string,
      hyphen_free e ->
      Py.rsplit1 "-"%char (v ++ "-" ++ e)%string = [v; e])
  /\ (forall v e : string,
         hyphen_free e ->
         Py.strip v <> EmptyString -> Py.strip e <> EmptyString ->
         format_option "tag-based" (v ++ "-" ++ e)
         = inr (tag_option (Py.strip v) (Py.strip e)))
  /\ format_option "tag-based" "urgent-math-tag"
     = inr [("text", VStr "urgent-math"); ("tag", VStr "tag")]
  /\ (forall (read_excel : list Byte.byte -> string + DataFrame)
             (file : UploadFile),
         excel_upload file ->
         read_excel (contents file) = inr sheet_urgent ->
         parse_quiz_excel read_excel file "tag-based" true
         = parsed
             [question_dict "Which one?"
                [[("text", VStr "urgent-math"); ("tag", VStr "tag")]]]).
Proof.
  split; [exact rsplit1_last |]. split; [| split].
  - intros v e He Hv Hx. rewrite (format_option_last_hyphen _ v e He).
    cbv zeta. apply String.eqb_neq in Hv, Hx. rewrite Hv, Hx. reflexivity.
  - reflexivity.
  - intros read_excel file Hfile Hread.
    rewrite (parse_quiz_excel_rows read_excel file "tag-based" true sheet_urgent);
      try assumption.
    + reflexivity.
    + now right.
    + simpl. auto.
Qed.

Lemma strict_cell_cut_at_last_hyphen_witness :
  hyphen_free "tag"
  /\ Py.rsplit1 "-"%char ("a-b" ++ "-" ++ "tag")%string = ["a-b"; "tag"]%string
  /\ format_option "tag-based" ("a-b" ++ "-" ++ "tag")
     = inr (tag_option "a-b" "tag")
  /\ parse_quiz_excel (reads sheet_urgent) (upload []) "tag-based" true
     = parsed [question_dict "Which one?" [tag_option "urgent-math" "tag"]].
Proof.
  destruct strict_cell_cut_at_last_hyphen as (Hsplit & Hopt & _ & Hreq).
  split; [exact hyphen_free_tag |].
  split; [exact (Hsplit "a-b"%string "tag"%string hyphen_free_tag) |].
  split.
  - apply (Hopt "a-b"%string "tag"%string hyphen_free_tag); discriminate.
  - apply (Hreq (reads sheet_urgent) (upload []));
      [apply xlsx_upload | reflexivity].
Defined.

(** ** C5: a strict cell without a hyphen *)

(** C5: with [require_option_format] set, when the handler reaches a
    non-empty option cell whose trimmed text has no hyphen, the whole
    request fails with the format error that names the row number
    (index + 2) and the column of that cell and echoes its text; nothing
    that had been parsed is returned, and neither the columns nor the rows
    after the cell change the answer. *)
Theorem strict_cell_without_hyphen_fails :
  forall (read_excel : list Byte.byte -> string + DataFrame)
         (file : UploadFile) (type : string) (df : DataFrame)
         (before after : list (list cell)) (cells : list cell)
         (questions : list value)
         (cols_before cols_after : list string) (col : string)
         (options : list dict),
    excel_upload file -> quiz_type type ->
    read_excel (contents file) = inr df ->
    In "question"%string (columns df) ->
    data df = before ++ cells :: after ->
    columns df = cols_before ++ col :: cols_after ->
    let index := length before in
    let row := series_of (columns df) cells in
    let option_raw := get row col NaN in
    rows_loop type true (columns df) (iterrows_from 0 (columns df) before) []
    = Next questions ->
    blank (get row "question" (Text EmptyString)) = false ->
    options_loop type true index row cols_before [] = Next options ->
    col <> "question"%string ->
    blank option_raw = false ->
    hyphen_free (Py.strip (str option_raw)) ->
    parse_quiz_excel read_excel file type true
    = JSONResponse 400
        (VDict
           [("error",
             VStr ("Invalid option format in row " ++ Py.str_nat (index + 2)
                   ++ ", column '" ++ col ++ "': '"
                   ++ Py.strip (str option_raw)
                   ++ "'. Error: Empty value or property"))]).
Proof.
  intros read_excel file type df before after cells questions
    cols_before cols_after col options Hfile Htype Hread Hq Hdata Hcols
    index row option_raw Hbefore Hquestion Hoptions Hcol Hcell Hfree.
  rewrite (parse_quiz_excel_rows read_excel file type true df) by assumption.
  unfold iterrows. rewrite Hdata.
  rewrite (rows_loop_reach _ _ _ _ _ _ _ Hbefore).
  fold index. fold row.
  rewrite (row_body_options _ _ _ _ _ _ Hquestion).
  replace (options_loop type true index row (columns df) [])
    with (options_loop type true index row (cols_before ++ col :: cols_after) [])
    by (rewrite <- Hcols; reflexivity).
  rewrite options_loop_app, Hoptions.
  rewrite (options_loop_cell _ _ _ _ _ _ _ Hcol Hcell).
  fold option_raw. unfold option_of_cell.
  rewrite (format_option_no_hyphen _ _ Hfree). reflexivity.
Qed.

Lemma strict_cell_without_hyphen_fails_witness :
  hyphen_free "plainoption"
  /\ parse_quiz_excel (reads sheet_plain) (upload []) "objective" true
     = error_response
         "Invalid option format in row 3, column 'opt2': 'plainoption'. Error: Empty value or property".
Proof.
  split; [exact hyphen_free_plainoption |].
  apply (strict_cell_without_hyphen_fails
           (reads sheet_plain) (upload []) "objective" sheet_plain
           [[Text "What is 2+2?"; Text "4-true"; Text "5-false"]]
           [[Text "Never read"; Text "x-true"; NaN]]
           [Text "Capital of France?"; Text "Paris-true"; Text "plainoption"]
           [question_dict "What is 2+2?"
              [objective_option "4" true; objective_option "5" false]]
           ["question"; "opt1"]%string [] "opt2"
           [objective_option "Paris" true]).
  - apply xlsx_upload.
  - now left.
  - reflexivity.
  - simpl; auto.
  - reflexivity.
  - reflexivity.
  - reflexivity.
  - reflexivity.
  - reflexivity.
  - discriminate.
  - reflexivity.
  - exact hyphen_free_plainoption.
Defined.

(** ** C6: lenient objective quizzes *)

(** C6: with [require_option_format] unset and the quiz type [objective],
    every non-blank cell of a column other than [question] gives the option
    [{text: cellText, isCorrect: false}], in column order and without any
    error; the check for a correct answer never fires, whatever the
    request; and a request in which some row has a non-blank question and a
    non-blank option cell succeeds, all its options having
    [isCorrect = false]. *)
Theorem lenient_objective_never_correct :
  (forall (index : nat) (row : Series) (cols : list string),
      options_loop "objective" false index row cols []
      = Next
          (map (fun col =>
                  [("text", VStr (Py.strip (str (get row col NaN))));
                   ("isCorrect", VBool false)])
             (filter (fun col => negb (String.eqb col "question")
                                 && negb (blank (get row col NaN))) cols)))
  /\ (forall (read_excel : list Byte.byte -> string + DataFrame)
             (file : UploadFile) (n : string),
         parse_quiz_excel read_excel file "objective" false
         <> error_response
              ("Objective question in row " ++ n
               ++ " must have at least one correct answer."))
  /\ (forall (read_excel : list Byte.byte -> string + DataFrame)
             (file : UploadFile) (df : DataFrame) (cells : list cell)
             (col : string),
         excel_upload file ->
         read_excel (contents file) = inr df ->
         In "question"%string (columns df) ->
         In cells (data df) ->
         let row := series_of (columns df) cells in
         blank (get row "question" (Text EmptyString)) = false ->
         In col (columns df) -> col <> "question"%string ->
         blank (get row col NaN) = false ->
         exists questions : list value,
           parse_quiz_excel read_excel file "objective" false
           = Return (VDict [("questions", VList questions);
                            ("count", VInt (length questions))])
           /\ questions <> []
           /\ Forall unmarked_question questions).
Proof.
  split; [| split].
  - intros index row cols.
    exact (options_loop_lenient_objective index row cols []).
  - intros read_excel file n. unfold parse_quiz_excel.
    destruct (negb _); [discriminate |].
    destruct (negb _); [discriminate |].
    destruct (read_excel (contents file)) as [e | df]; [discriminate |].
    destruct (negb _); [discriminate |].
    destruct (rows_loop_lenient_objective (columns df) (iterrows df) [])
      as (extra & -> & _).
    destruct ([] ++ extra); discriminate.
  - intros read_excel file df cells col Hfile Hread Hq Hcells row
      Hquestion Hcol Hne Hcell.
    rewrite (parse_quiz_excel_rows read_excel file "objective" false df);
      [| assumption | now left | assumption | assumption].
    unfold iterrows.
    destruct (In_iterrows_from 0 (columns df) _ _ Hcells)
      as (before & after & ->).
    rewrite rows_loop_app.
    destruct (rows_loop_lenient_objective (columns df)
                (iterrows_from 0 (columns df) before) [])
      as (extra1 & -> & H1).
    cbn [rows_loop app Nat.add]. fold row.
    destruct (row_body_lenient_objective (columns df) (length before)
                row extra1) as (extra2 & -> & H2 & Hsome).
    destruct (rows_loop_lenient_objective (columns df)
                (iterrows_from (S (length before)) (columns df) after)
                (extra1 ++ extra2)) as (extra3 & -> & H3).
    assert (Hextra2 : extra2 <> []).
    { apply Hsome; [assumption |]. intros E.
      assert (Hin : In col (option_cols row (columns df))).
      { apply filter_In. split; [assumption |].
        apply String.eqb_neq in Hne. rewrite Hne, Hcell. reflexivity. }
      rewrite E in Hin. contradiction. }
    exists ((extra1 ++ extra2) ++ extra3).
    assert (Hall : Forall unmarked_question
                     ((extra1 ++ extra2) ++ extra3))
      by (repeat (apply Forall_app; split); auto).
    assert (Hnonempty : (extra1 ++ extra2) ++ extra3 <> []).
    { intros E. apply app_eq_nil in E as (E & _).
      apply app_eq_nil in E as (_ & E). contradiction. }
    split; [| split; assumption].
    destruct ((extra1 ++ extra2) ++ extra3); [contradiction |].
    reflexivity.
Qed.

Lemma lenient_objective_never_correct_witness :
  parse_quiz_excel (reads sheet_paris) (upload []) "objective" false
  = parsed
      [question_dict "Capital of France?"
         [objective_option "Paris" false; objective_option "Lyon" false]]
  /\ exists questions : list value,
       parse_quiz_excel (reads sheet_paris) (upload []) "objective" false
       = parsed questions
       /\ questions <> []
       /\ Forall unmarked_question questions.
Proof.
  split; [reflexivity |].
  apply (proj2 (proj2 lenient_objective_never_correct)
           (reads sheet_paris) (upload []) sheet_paris
           [Text "Capital of France?"; Text "Paris"; Text " Lyon "]
           "opt1"%string).
  - apply xlsx_upload.
  - reflexivity.
  - simpl; auto.
  - simpl; auto.
  - reflexivity.
  - simpl; auto.
  - discriminate.
  - reflexivity.
Defined.

(** ** C7: rows without a question *)

(** C7: a row whose [question] cell is missing, or whose text is empty
    or made of white space only (that is, empty once trimmed), is skipped
    whatever its other cells hold: the body of the loop appends no
    question and raises no error, and the loop goes on with the next
    row. *)
Theorem blank_question_row_skipped :
  forall (type : string) (require_option_format : bool) (cols : list string)
         (index : nat) (cells : list cell) (rest : list (list cell))
         (questions : list value),
    let row := series_of cols cells in
    let raw_question := get row "question" (Text EmptyString) in
    raw_question = NaN \/ whitespace_only (str raw_question) ->
    row_body type require_option_format cols index row questions
    = Next questions
    /\ rows_loop type require_option_format cols
         (iterrows_from index cols (cells :: rest)) questions
       = rows_loop type require_option_format cols
           (iterrows_from (S index) cols rest) questions.
Proof.
  intros type rof cols index cells rest questions row raw_question H.
  assert (Hblank : blank raw_question = true).
  { unfold blank. destruct H as [-> | H]; [reflexivity |].
    apply strip_whitespace_only in H. rewrite H. apply orb_true_r. }
  pose proof (row_body_blank type rof cols index row questions Hblank) as E.
  split; [exact E |].
  simpl. fold row. rewrite E. reflexivity.
Qed.

Lemma blank_question_row_skipped_witness :
  rows_loop "objective" true ["question"; "opt1"]%string
    (iterrows_from 0 ["question"; "opt1"]%string
       [[Text "   "; Text "4-true"]; [Text "What is 2+2?"; Text "4-true"]]) []
  = rows_loop "objective" true ["question"; "opt1"]%string
      (iterrows_from 1 ["question"; "opt1"]%string
         [[Text "What is 2+2?"; Text "4-true"]]) [].
Proof.
  apply (blank_question_row_skipped "objective" true
           ["question"; "opt1"]%string 0 [Text "   "; Text "4-true"]
           [[Text "What is 2+2?"; Text "4-true"]] []).
  right. apply strip_whitespace_only. reflexivity.
Defined.

(** ** C8: the [question] column *)

(** C8: once the upload and the quiz type are accepted, a frame without a
    column named [question] is rejected with the error about that column,
    whatever its rows hold; the check comes after the decoding, so a file
    that cannot be read is rejected with the reading error instead. *)
Theorem missing_question_column_rejected :
  forall (read_excel : list Byte.byte -> string + DataFrame)
         (file : UploadFile) (type : string) (require_option_format : bool),
    excel_upload file -> quiz_type type ->
    (forall df : DataFrame,
        read_excel (contents file) = inr df ->
        ~ In "question"%string (columns df) ->
        parse_quiz_excel read_excel file type require_option_format
        = JSONResponse 400
            (VDict
               [("error",
                 VStr "Excel file must contain a 'question' column.")]))
    /\ (forall e : string,
           read_excel (contents file) = inl e ->
           parse_quiz_excel read_excel file type require_option_format
           = JSONResponse 400
               (VDict [("error", VStr ("Error reading Excel file: " ++ e))])).
Proof.
  intros read_excel file type rof Hfile Htype. unfold parse_quiz_excel.
  rewrite (excel_upload_guard _ Hfile), (quiz_type_guard _ Htype). simpl negb.
  split.
  - intros df -> Hcol. apply mem_not_In in Hcol. rewrite Hcol. reflexivity.
  - intros e ->. reflexivity.
Qed.

Lemma missing_question_column_rejected_witness :
  parse_quiz_excel (reads sheet_no_question) (upload []) "objective" true
  = error_response "Excel file must contain a 'question' column.".
Proof.
  apply (proj1 (missing_question_column_rejected
                  (reads sheet_no_question) (upload []) "objective" true
                  (xlsx_upload []) (or_introl eq_refl))
           sheet_no_question eq_refl).
  simpl. intros [H | [H | []]]; discriminate H.
Defined.

(** ** C9: the quiz type *)

(** C9: for an upload of an accepted MIME type, every quiz type other
    than [objective] and [tag-based] is rejected with the message
    "Invalid quiz type. Must be 'objective' or 'tag'."; the value
    [tag-based] is accepted: no request with it gets that message. *)
Theorem quiz_type_checked :
  (forall (read_excel : list Byte.byte -> string + DataFrame)
          (file : UploadFile) (type : string) (require_option_format : bool),
      excel_upload file ->
      type <> "objective"%string -> type <> "tag-based"%string ->
      parse_quiz_excel read_excel file type require_option_format
      = JSONResponse 400
          (VDict
             [("error",
               VStr "Invalid quiz type. Must be 'objective' or 'tag'.")]))
  /\ (forall (read_excel : list Byte.byte -> string + DataFrame)
             (file : UploadFile) (require_option_format : bool),
         parse_quiz_excel read_excel file "tag-based" require_option_format
         <> JSONResponse 400
              (VDict
                 [("error",
                   VStr "Invalid quiz type. Must be 'objective' or 'tag'.")])).
Proof.
  split.
  - intros read_excel file type rof Hfile Hobj Htag. unfold parse_quiz_excel.
    assert (Hmem : Py.mem type ["objective"; "tag-based"]%string = false).
    { apply mem_not_In. simpl. intros [E | [E | []]]; congruence. }
    rewrite (excel_upload_guard _ Hfile), Hmem. reflexivity.
  - intros read_excel file rof. unfold parse_quiz_excel.
    destruct (negb _); [discriminate |]. simpl negb.
    destruct (read_excel (contents file)) as [e | df]; [discriminate |].
    destruct (negb _); [discriminate |].
    destruct (rows_loop "tag-based" rof (columns df) (iterrows df) [])
      as [[| q questions] | r] eqn:E; try discriminate.
    apply row_error_not_quiz_type. exact (rows_loop_exit _ _ _ _ _ _ E).
Qed.

Lemma quiz_type_checked_witness :
  parse_quiz_excel (reads sheet_2plus2) (upload []) "tag" true
  = error_response "Invalid quiz type. Must be 'objective' or 'tag'.".
Proof.
  apply (proj1 quiz_type_checked (reads sheet_2plus2) (upload []) "tag"%string
           true (xlsx_upload [])); discriminate.
Defined.

(** ** C10: blanks around the last hyphen *)

(** C10: with [require_option_format] set, both parts of a cell are
    trimmed after the cut at the last hyphen, and for the quiz type
    [objective] the second part is compared with [true] and [false]
    whatever its case: a cell whose trimmed text is [4 - true] appends the
    option [{text: "4", isCorrect: true}], and so does [4 - TRUE]. *)
Theorem strict_objective_trims_both_parts :
  (forall v e : string,
      hyphen_free e ->
      Py.strip v <> EmptyString ->
      Py.lower (Py.strip e) = "true"%string
      \/ Py.lower (Py.strip e) = "false"%string ->
      format_option "objective" (v ++ "-" ++ e)
      = inr [("text", VStr (Py.strip v));
             ("isCorrect", VBool (String.eqb (Py.lower (Py.strip e)) "true"))])
  /\ (forall (index : nat) (row : Series) (col : string) (cols : list string)
             (options : list dict),
         col <> "question"%string ->
         isna (get row col NaN) = false ->
         Py.strip (str (get row col NaN)) = "4 - true"%string ->
         options_loop "objective" true index row (col :: cols) options
         = options_loop "objective" true index row cols
             (options ++ [[("text", VStr "4"); ("isCorrect", VBool true)]]))
  /\ format_option "objective" "4 - TRUE"
     = inr [("text", VStr "4"); ("isCorrect", VBool true)].
Proof.
  split; [| split].
  - intros v e He Hv Hx. rewrite (format_option_last_hyphen _ v e He).
    cbv zeta. apply String.eqb_neq in Hv. rewrite Hv.
    assert (Hne : String.eqb (Py.strip e) EmptyString = false).
    { destruct (Py.strip e); [destruct Hx; discriminate | reflexivity]. }
    rewrite Hne. destruct Hx as [-> | ->]; reflexivity.
  - intros index row col cols options Hcol Hna Htext.
    rewrite options_loop_cell; [| assumption |].
    + rewrite Htext. reflexivity.
    + unfold blank. rewrite Hna, Htext. reflexivity.
  - reflexivity.
Qed.

Lemma strict_objective_trims_both_parts_witness :
  format_option "objective" ("4 " ++ "-" ++ " true")
  = inr (objective_option "4" true)
  /\ options_loop "objective" true 0
       (series_of ["question"; "opt1"]%string
          [Text "What is 2+2?"; Text "  4 - true "])
       ["opt1"%string] []
     = Next [objective_option "4" true].
Proof.
  destruct strict_objective_trims_both_parts as (Hformat & Hcell & _).
  split.
  - apply (Hformat "4 "%string " true"%string hyphen_free_true);
      [discriminate | left; reflexivity].
  - apply (Hcell 0
             (series_of ["question"; "opt1"]%string
                [Text "What is 2+2?"; Text "  4 - true "])
             "opt1"%string [] []);
      [discriminate | reflexivity | reflexivity].
Defined.

(** * Further properties of the handler *)

(** ** The upload and the shape of the answer *)

(** X1: an upload whose declared MIME type is none of the two Excel
    types, or that declares none, is rejected with the file type error,
    whatever the quiz type, the flag and the bytes: the file is not
    read. *)
Theorem other_content_type_rejected :
  forall (read_excel : list Byte.byte -> string + DataFrame)
         (file : UploadFile) (type : string) (require_option_format : bool),
    (forall t, content_type file = Some t -> ~ In t allowed_types) ->
    parse_quiz_excel read_excel file type require_option_format
    = JSONResponse 400
        (VDict
           [("error",
             VStr "Invalid file type. Only Excel files are allowed.")]).
Proof.
  intros read_excel file type rof H. unfold parse_quiz_excel.
  destruct (content_type file) as [t |]; [| reflexivity].
  specialize (H t eq_refl). apply mem_not_In in H. rewrite H. reflexivity.
Qed.

Lemma other_content_type_rejected_witness :
  parse_quiz_excel (reads sheet_2plus2)
    {| content_type := Some "text/csv"%string; contents := [] |}
    "objective" true
  = error_response "Invalid file type. Only Excel files are allowed.".
Proof.
  apply (other_content_type_rejected (reads sheet_2plus2)
           {| content_type := Some "text/csv"%string; contents := [] |}
           "objective"%string true).
  intros t E. injection E as <-. simpl. intros [H | [H | []]]; discriminate H.
Defined.

(** X2: every answer is either a response of status 400 whose body holds
    the single key [error] with a message, or the success body with at
    least one question and the matching count. *)
Theorem answer_is_error_or_questions :
  forall (read_excel : list Byte.byte -> string + DataFrame)
         (file : UploadFile) (type : string) (require_option_format : bool),
    (exists msg : string,
        parse_quiz_excel read_excel file type require_option_format
        = JSONResponse 400 (VDict [("error", VStr msg)]))
    \/ (exists (q : value) (questions : list value),
           parse_quiz_excel read_excel file type require_option_format
           = Return (VDict [("questions", VList (q :: questions));
                            ("count", VInt (S (length questions)))])).
Proof.
  intros read_excel file type rof. unfold parse_quiz_excel.
  destruct (negb _); [left; eexists; reflexivity |].
  destruct (negb _); [left; eexists; reflexivity |].
  destruct (read_excel (contents file)) as [e | df];
    [left; eexists; reflexivity |].
  destruct (negb _); [left; eexists; reflexivity |].
  destruct (rows_loop type rof (columns df) (iterrows df) [])
    as [[| q questions] | r] eqn:E.
  - left; eexists; reflexivity.
  - right. exists q, questions. reflexivity.
  - left. destruct (rows_loop_exit _ _ _ _ _ _ E) as (rest & [-> | [-> | ->]]);
      eexists; reflexivity.
Qed.

(** ** Rows and their option cells *)

Lemma options_loop_skip (type : string) (rof : bool) (index : nat)
    (row : Series) (cols : list string) (options : list dict) :
  option_cols row cols = [] ->
  options_loop type rof index row cols options = Next options.
Proof.
  induction cols as [| col cols IH]; simpl; [reflexivity |].
  destruct (String.eqb col "question"); simpl; [exact IH |].
  fold (blank (get row col NaN)).
  destruct (blank (get row col NaN)); simpl; [exact IH | discriminate].
Qed.

Lemma options_loop_length (type : string) (rof : bool) (index : nat)
    (row : Series) (cols : list string) (options options' : list dict) :
  options_loop type rof index row cols options = Next options' ->
  length options' = length options + length (option_cols row cols).
Proof.
  revert options. induction cols as [| col cols IH]; intros options; simpl.
  - intros H. injection H as <-. now rewrite Nat.add_0_r.
  - destruct (String.eqb col "question"); simpl; [apply IH |].
    fold (blank (get row col NaN)).
    destruct (blank (get row col NaN)); simpl; [apply IH |].
    destruct (option_of_cell type rof index col _) as [o | r]; [| discriminate].
    intros H. apply IH in H. rewrite H, length_app. simpl. lia.
Qed.

Lemma options_loop_lenient (type : string) (index : nat) (row : Series)
    (cols : list string) (options : list dict) :
  options_loop type false index row cols options
  = Next (options ++ map (lenient_option type row) (option_cols row cols)).
Proof.
  unfold lenient_option.
  destruct (String.eqb type "objective") eqn:Et; revert options;
    induction cols as [| col cols IH]; intros options; simpl;
    try (now rewrite app_nil_r);
    (destruct (String.eqb col "question"); simpl; [apply IH |]);
    fold (blank (get row col NaN));
    (destruct (blank (get row col NaN)); simpl; [apply IH |]);
    rewrite Et, IH, <- app_assoc; reflexivity.
Qed.

Lemma row_body_unusable (type : string) (rof : bool) (cols : list string)
    (index : nat) (cells : list cell) (questions : list value) :
  usable cols cells = false ->
  row_body type rof cols index (series_of cols cells) questions
  = Next questions.
Proof.
  unfold usable. cbv zeta.
  destruct (blank (get (series_of cols cells) "question" (Text EmptyString)))
    eqn:Hq; simpl.
  - intros _. exact (row_body_blank _ _ _ _ _ _ Hq).
  - intros H. rewrite (row_body_options _ _ _ _ _ _ Hq).
    rewrite options_loop_skip; [reflexivity |].
    destruct (option_cols (series_of cols cells) cols);
      [reflexivity | discriminate].
Qed.

(** What the body of the loop appends when it goes on to the next row. *)
Lemma row_body_usable (type : string) (rof : bool) (cols : list string)
    (index : nat) (cells : list cell) (questions questions' : list value) :
  let row := series_of cols cells in
  row_body type rof cols index row questions = Next questions' ->
  if usable cols cells then
    exists options : list dict,
      options_loop type rof index row cols [] = Next options
      /\ options <> []
      /\ questions'
         = questions
           ++ [question_dict
                 (Py.strip (str (get row "question" (Text EmptyString))))
                 options]
  else questions' = questions.
Proof.
  intros row. destruct (usable cols cells) eqn:Hu.
  - unfold usable in Hu. fold row in Hu. cbv zeta in Hu.
    apply andb_prop in Hu as (Hq & Hcols). apply negb_true_iff in Hq.
    rewrite (row_body_options _ _ _ _ _ _ Hq).
    destruct (options_loop type rof index row cols []) as [options | r] eqn:E;
      [| discriminate].
    pose proof (options_loop_length _ _ _ _ _ _ _ E) as Hlen.
    destruct options as [| o options].
    { destruct (option_cols row cols); [discriminate | discriminate Hlen]. }
    cbv zeta.
    destruct (String.eqb type "objective" && rof).
    + destruct (any_isCorrect (o :: options)) as [e | [|]]; try discriminate.
      intros H. injection H as <-. exists (o :: options).
      repeat split; discriminate.
    + intros H. injection H as <-. exists (o :: options).
      repeat split; discriminate.
  - unfold row. rewrite (row_body_unusable _ _ _ _ _ _ Hu).
    intros H. injection H as <-. reflexivity.
Qed.

(** ** Which rows give a question *)

Lemma rows_loop_usable (type : string) (rof : bool) (cols : list string)
    (rows : list (list cell)) (start : nat) (questions questions' : list value) :
  rows_loop type rof cols (iterrows_from start cols rows) questions
  = Next questions' ->
  exists extra : list value,
    questions' = questions ++ extra
    /\ Forall2 (question_of_row cols) extra (filter (usable cols) rows).
Proof.
  revert start questions.
  induction rows as [| cells rows IH]; intros start questions; simpl.
  - intros H. injection H as <-. exists []. rewrite app_nil_r.
    split; [reflexivity | constructor].
  - destruct (row_body type rof cols start (series_of cols cells) questions)
      as [questions1 | r] eqn:E; [| discriminate].
    intros H. apply IH in H as (extra & -> & Hextra).
    pose proof (row_body_usable _ _ _ _ _ _ _ E) as Hrow. cbv zeta in Hrow.
    destruct (usable cols cells).
    + destruct Hrow as (options & Hopts & _ & ->).
      eexists (_ :: extra). rewrite <- app_assoc. split; [reflexivity |].
      constructor; [| exact Hextra].
      exists options. split; [reflexivity |].
      exact (options_loop_length _ _ _ _ _ _ _ Hopts).
    + subst questions1. exists extra. split; [reflexivity | exact Hextra].
Qed.

(** X3: when the handler succeeds, its questions are, in row order,
    the rows of the frame with a non-blank question and a non-blank option
    cell: each question carries the trimmed text of the [question] cell of
    its row and as many options as the row has non-blank option cells. In
    particular the count is the number of those rows. *)
Theorem questions_follow_usable_rows :
  forall (read_excel : list Byte.byte -> string + DataFrame)
         (file : UploadFile) (type : string) (require_option_format : bool)
         (df : DataFrame) (body : value),
    read_excel (contents file) = inr df ->
    parse_quiz_excel read_excel file type require_option_format
    = Return body ->
    exists questions : list value,
      body = VDict [("questions", VList questions);
                    ("count", VInt (length questions))]
      /\ Forall2 (question_of_row (columns df)) questions
           (filter (usable (columns df)) (data df))
      /\ length questions
         = length (filter (usable (columns df)) (data df)).
Proof.
  intros read_excel file type rof df body Hread. unfold parse_quiz_excel.
  destruct (negb _); [discriminate |].
  destruct (negb _); [discriminate |].
  rewrite Hread.
  destruct (negb _); [discriminate |].
  destruct (rows_loop type rof (columns df) (iterrows df) [])
    as [questions | r] eqn:E.
  - apply rows_loop_usable in E as (extra & -> & Hextra). simpl app.
    destruct extra as [| q extra]; [discriminate |].
    intros H. injection H as <-. exists (q :: extra).
    split; [reflexivity |]. split; [exact Hextra |].
    exact (Forall2_length Hextra).
  - intros ->.
    destruct (rows_loop_exit _ _ _ _ _ _ E) as (rest & [H | [H | H]]);
      discriminate H.
Qed.

Lemma questions_follow_usable_rows_witness :
  exists questions : list value,
    parse_quiz_excel (reads sheet_paris) (upload []) "tag-based" false
    = parsed questions
    /\ length questions = 1.
Proof.
  destruct (questions_follow_usable_rows
              (reads sheet_paris) (upload []) "tag-based" false sheet_paris
              (VDict
                 [("questions",
                   VList
                     [question_dict "Capital of France?"
                        [tag_option "Paris" "opt1"; tag_option "Lyon" "opt2"]]);
                  ("count", VInt 1)])
              eq_refl eq_refl) as (questions & Hbody & _ & Hlen).
  exists questions. split; [| exact Hlen].
  unfold parsed. rewrite <- Hbody. reflexivity.
Defined.

(** ** Requests without a usable row *)

Lemma rows_loop_unusable (type : string) (rof : bool) (cols : list string)
    (rows : list (list cell)) (start : nat) (questions : list value) :
  Forall (fun cells => usable cols cells = false) rows ->
  rows_loop type rof cols (iterrows_from start cols rows) questions
  = Next questions.
Proof.
  intros H. revert start.
  induction H as [| cells rows Hcells _ IH]; intros start; simpl.
  - reflexivity.
  - rewrite (row_body_unusable _ _ _ _ _ _ Hcells). apply IH.
Qed.

(** X4: when no row of the frame has both a non-blank question and a
    non-blank option cell (in particular when the frame has no row), the
    request fails with "No valid questions found in the Excel file.", in
    either mode: no cell of such a row is checked against the option
    format. *)
Theorem no_usable_row_no_questions :
  forall (read_excel : list Byte.byte -> string + DataFrame)
         (file : UploadFile) (type : string) (require_option_format : bool)
         (df : DataFrame),
    excel_upload file -> quiz_type type ->
    read_excel (contents file) = inr df ->
    In "question"%string (columns df) ->
    Forall (fun cells => usable (columns df) cells = false) (data df) ->
    parse_quiz_excel read_excel file type require_option_format
    = JSONResponse 400
        (VDict
           [("error", VStr "No valid questions found in the Excel file.")]).
Proof.
  intros read_excel file type rof df Hfile Htype Hread Hq Hrows.
  rewrite (parse_quiz_excel_rows read_excel file type rof df) by assumption.
  unfold iterrows. rewrite (rows_loop_unusable _ _ _ _ _ _ Hrows).
  reflexivity.
Qed.

Lemma no_usable_row_no_questions_witness :
  parse_quiz_excel (reads sheet_blank) (upload []) "objective" true
  = error_response "No valid questions found in the Excel file.".
Proof.
  apply (no_usable_row_no_questions (reads sheet_blank) (upload [])
           "objective"%string true sheet_blank).
  - apply xlsx_upload.
  - now left.
  - reflexivity.
  - simpl; auto.
  - repeat constructor.
Defined.

(** ** The lenient path as a map over the frame *)

Lemma row_body_lenient (type : string) (cols : list string) (index : nat)
    (cells : list cell) (questions : list value) :
  let row := series_of cols cells in
  row_body type false cols index row questions
  = Next (questions
          ++ if usable cols cells then
               [question_dict
                  (Py.strip (str (get row "question" (Text EmptyString))))
                  (map (lenient_option type row) (option_cols row cols))]
             else []).
Proof.
  intros row. destruct (usable cols cells) eqn:Hu.
  - unfold usable in Hu. fold row in Hu. cbv zeta in Hu.
    apply andb_prop in Hu as (Hq & Hcols). apply negb_true_iff in Hq.
    rewrite (row_body_options _ _ _ _ _ _ Hq), options_loop_lenient.
    rewrite andb_false_r. simpl app.
    destruct (option_cols row cols); [discriminate | reflexivity].
  - unfold row. rewrite (row_body_unusable _ _ _ _ _ _ Hu), app_nil_r.
    reflexivity.
Qed.

Lemma rows_loop_lenient (type : string) (cols : list string)
    (rows : list (list cell)) (start : nat) (questions : list value) :
  rows_loop type false cols (iterrows_from start cols rows) questions
  = Next (questions ++ lenient_questions type cols rows).
Proof.
  revert start questions.
  induction rows as [| cells rows IH]; intros start questions; simpl.
  - now rewrite app_nil_r.
  - rewrite row_body_lenient, IH, <- app_assoc. reflexivity.
Qed.

(** X5: with [require_option_format] unset the handler never fails on a
    row or a cell: past the three checks on the request, its answer is the
    map of the usable rows, in row order, to questions whose options are
    the non-blank option cells in column order, each
    [{text, isCorrect: false}] for an objective quiz and
    [{text, tag: column label}] otherwise; the request fails only when
    that list is empty. *)
Theorem lenient_mode_maps_the_frame :
  forall (read_excel : list Byte.byte -> string + DataFrame)
         (file : UploadFile) (type : string) (df : DataFrame),
    excel_upload file -> quiz_type type ->
    read_excel (contents file) = inr df ->
    In "question"%string (columns df) ->
    parse_quiz_excel read_excel file type false
    = match lenient_questions type (columns df) (data df) with
      | [] => error_response "No valid questions found in the Excel file."
      | questions =>
          Return (VDict [("questions", VList questions);
                         ("count", VInt (length questions))])
      end.
Proof.
  intros read_excel file type df Hfile Htype Hread Hq.
  rewrite (parse_quiz_excel_rows read_excel file type false df) by assumption.
  unfold iterrows. rewrite rows_loop_lenient. simpl app.
  destruct (lenient_questions type (columns df) (data df)); reflexivity.
Qed.

Lemma lenient_mode_maps_the_frame_witness :
  parse_quiz_excel (reads sheet_paris) (upload []) "tag-based" false
  = parsed
      [question_dict "Capital of France?"
         [tag_option "Paris" "opt1"; tag_option "Lyon" "opt2"]].
Proof.
  apply (lenient_mode_maps_the_frame (reads sheet_paris) (upload [])
           "tag-based"%string sheet_paris).
  - apply xlsx_upload.
  - now right.
  - reflexivity.
  - simpl; auto.
Defined.

(** ** Rows after a failure *)

(** X6: an error other than "No valid questions found in the Excel file."
    is final: the same request on a frame with the same columns and more
    rows after the same first rows gets the same error. A failing sheet is
    never repaired, and its error never changed, by adding rows below. *)
Theorem error_kept_when_rows_are_added :
  forall (read_excel read_excel' : list Byte.byte -> string + DataFrame)
         (file : UploadFile) (type : string) (require_option_format : bool)
         (df : DataFrame) (more : list (list cell)) (msg : string),
    read_excel (contents file) = inr df ->
    read_excel' (contents file)
    = inr {| columns := columns df; data := data df ++ more |} ->
    parse_quiz_excel read_excel file type require_option_format
    = error_response msg ->
    msg <> "No valid questions found in the Excel file."%string ->
    parse_quiz_excel read_excel' file type require_option_format
    = error_response msg.
Proof.
  intros read_excel read_excel' file type rof df more msg Hread Hread'.
  unfold parse_quiz_excel. rewrite Hread, Hread'. simpl columns.
  destruct (negb _); [trivial |].
  destruct (negb _); [trivial |].
  destruct (negb _); [trivial |].
  unfold iterrows. simpl columns. simpl data.
  rewrite iterrows_from_app, rows_loop_app.
  destruct (rows_loop type rof (columns df)
              (iterrows_from 0 (columns df) (data df)) [])
    as [[| q questions] | r].
  - intros H Hmsg. injection H as H. congruence.
  - discriminate.
  - trivial.
Qed.

Lemma error_kept_when_rows_are_added_witness :
  parse_quiz_excel
    (reads {| columns := columns sheet_plain;
              data := data sheet_plain
                      ++ [[Text "What is 3+3?"; Text "6-true"; NaN]] |})
    (upload []) "objective" true
  = error_response
      "Invalid option format in row 3, column 'opt2': 'plainoption'. Error: Empty value or property".
Proof.
  apply (error_kept_when_rows_are_added (reads sheet_plain)
           (reads {| columns := columns sheet_plain;
                     data := data sheet_plain
                             ++ [[Text "What is 3+3?"; Text "6-true"; NaN]] |})
           (upload []) "objective"%string true sheet_plain
           [[Text "What is 3+3?"; Text "6-true"; NaN]]).
  - reflexivity.
  - reflexivity.
  - reflexivity.
  - discriminate.
Defined.

(** ** More on trimming *)

Lemma lstrip_starts_nonspace (s : string) : starts_nonspace (Py.lstrip s).
Proof.
  induction s as [| c s IH]; simpl; [exact I |].
  destruct (Py.isspace c) eqn:E; [exact IH | exact E].
Qed.

Lemma lstrip_fixed (s : string) : starts_nonspace s -> Py.lstrip s = s.
Proof.
  destruct s as [| c s]; simpl; [reflexivity |]. intros ->. reflexivity.
Qed.

Lemma rstrip_starts_nonspace (s : string) :
  starts_nonspace s -> starts_nonspace (Py.rstrip s).
Proof.
  destruct s as [| c s]; simpl; [trivial |]. intros E.
  destruct (Py.rstrip s); [rewrite E |]; exact E.
Qed.

Lemma rstrip_idem (s : string) : Py.rstrip (Py.rstrip s) = Py.rstrip s.
Proof.
  induction s as [| c s IH]; simpl; [reflexivity |].
  destruct (Py.rstrip s) as [| d r] eqn:E.
  - destruct (Py.isspace c) eqn:Ec; simpl; [reflexivity |].
    rewrite Ec. reflexivity.
  - change (Py.rstrip (String c (String d r))) with
      (match Py.rstrip (String d r) with
       | EmptyString =>
           if Py.isspace c then EmptyString else String c EmptyString
       | t => String c t
       end).
    rewrite IH. reflexivity.
Qed.

(** What [strip] returns is trimmed. *)
Lemma strip_idem (s : string) : trimmed (Py.strip s).
Proof.
  unfold trimmed, Py.strip.
  rewrite (lstrip_fixed (Py.rstrip (Py.lstrip s))).
  - apply rstrip_idem.
  - apply rstrip_starts_nonspace, lstrip_starts_nonspace.
Qed.

Lemma rstrip_no_space (s : string) :
  (forall c, In c (list_ascii_of_string s) -> Py.isspace c = false) ->
  Py.rstrip s = s.
Proof.
  induction s as [| c s IH]; intros H; simpl; [reflexivity |].
  rewrite IH by (intros d Hd; apply H; simpl; auto).
  destruct s; [| reflexivity].
  rewrite (H c) by (simpl; auto). reflexivity.
Qed.

(** A text without white space is left as it is. *)
Lemma strip_no_space (s : string) :
  (forall c, In c (list_ascii_of_string s) -> Py.isspace c = false) ->
  Py.strip s = s.
Proof.
  intros H. unfold Py.strip. rewrite (lstrip_fixed s).
  - exact (rstrip_no_space s H).
  - destruct s as [| c s]; simpl; [exact I | apply H; simpl; auto].
Qed.

Lemma In_lstrip (s : string) (c : ascii) :
  In c (list_ascii_of_string (Py.lstrip s)) -> In c (list_ascii_of_string s).
Proof.
  induction s as [| d s IH]; simpl; [trivial |].
  destruct (Py.isspace d); [auto | trivial].
Qed.

Lemma In_rstrip (s : string) (c : ascii) :
  In c (list_ascii_of_string (Py.rstrip s)) -> In c (list_ascii_of_string s).
Proof.
  induction s as [| d s IH]; simpl; [trivial |].
  destruct (Py.rstrip s) as [| e r].
  - destruct (Py.isspace d); simpl; [contradiction |].
    intros [H | []]; auto.
  - simpl. intros [H | H]; [auto | right; apply IH; exact H].
Qed.

(** Trimming adds no character. *)
Lemma In_strip (s : string) (c : ascii) :
  In c (list_ascii_of_string (Py.strip s)) -> In c (list_ascii_of_string s).
Proof.
  intros H. apply In_lstrip, In_rstrip, H.
Qed.

Lemma hyphen_free_strip (s : string) :
  hyphen_free s -> hyphen_free (Py.strip s).
Proof.
  intros H c Hc. apply H, In_strip, Hc.
Qed.

(** ** More on the cut at the last hyphen *)

Lemma rpartition_some (sep : ascii) (s v e : string) :
  Py.rpartition sep s = Some (v, e) ->
  s = (v ++ String sep e)%string
  /\ (forall c, In c (list_ascii_of_string e) -> c <> sep).
Proof.
  revert v. induction s as [| c s IH]; intros v; simpl; [discriminate |].
  destruct (Py.rpartition sep s) as [[v' e'] |] eqn:E.
  - intros H. injection H as <- <-.
    destruct (IH v' eq_refl) as (-> & He). split; [reflexivity | exact He].
  - destruct (Ascii.eqb_spec c sep) as [-> | _]; [| discriminate].
    intros H. injection H as <- <-. split; [reflexivity |].
    clear IH. revert E. induction s as [| d s IHs]; simpl.
    + intros _ c [].
    + destruct (Py.rpartition sep s) as [[v' e'] |]; [discriminate |].
      destruct (Ascii.eqb_spec d sep) as [-> | Hd]; [discriminate |].
      intros _ c [<- | Hc]; [exact Hd | exact (IHs eq_refl c Hc)].
Qed.

(** A text has no hyphen, or it is cut in one way at its last hyphen. *)
Lemma last_hyphen_cases (s : string) :
  hyphen_free s
  \/ exists v e : string, s = (v ++ "-" ++ e)%string /\ hyphen_free e.
Proof.
  destruct (Py.rpartition "-"%char s) as [[v e] |] eqn:E.
  - right. exists v, e. exact (rpartition_some _ _ _ _ E).
  - left. intros c Hc. revert E Hc. induction s as [| d s IH]; simpl.
    + intros _ [].
    + destruct (Py.rpartition "-"%char s) as [[v' e'] |]; [discriminate |].
      destruct (Ascii.eqb_spec d "-"%char) as [-> | Hd]; [discriminate |].
      intros _ [<- | Hc]; [exact Hd | exact (IH eq_refl Hc)].
Qed.

Lemma format_option_objective (v e : string) :
  hyphen_free e ->
  format_option "objective" (v ++ "-" ++ e) =
  if String.eqb (Py.strip v) EmptyString
     || String.eqb (Py.strip e) EmptyString then
    inl "Empty value or property"%string
  else if String.eqb (Py.lower (Py.strip e)) "true" then
    inr (objective_option (Py.strip v) true)
  else if String.eqb (Py.lower (Py.strip e)) "false" then
    inr (objective_option (Py.strip v) false)
  else inl "Property must be 'true' or 'false'"%string.
Proof.
  intros He. rewrite (format_option_last_hyphen _ v e He). cbv zeta.
  destruct (_ || _); [reflexivity |].
  change (String.eqb "objective" "objective") with true. cbv iota.
  unfold Py.mem, existsb.
  destruct (String.eqb (Py.lower (Py.strip e)) "true"); [reflexivity |].
  destruct (String.eqb (Py.lower (Py.strip e)) "false"); reflexivity.
Qed.

Lemma format_option_tag (v e : string) :
  hyphen_free e ->
  format_option "tag-based" (v ++ "-" ++ e) =
  if String.eqb (Py.strip v) EmptyString
     || String.eqb (Py.strip e) EmptyString then
    inl "Empty value or property"%string
  else inr (tag_option (Py.strip v) (Py.strip e)).
Proof.
  intros He. rewrite (format_option_last_hyphen _ v e He). reflexivity.
Qed.

(** ** Which strict cells are accepted *)

(** X7: with [require_option_format] set and the quiz type [objective],
    a cell text is accepted exactly when it has a hyphen, the part before
    the last hyphen is not blank, and the part after it, trimmed and
    lowered, is [true] or [false]; the option is then the trimmed first
    part with [isCorrect] telling whether the second part spells
    [true]. *)
Theorem strict_objective_cell_accepted_iff :
  forall (s : string) (o : dict),
    format_option "objective" s = inr o
    <-> exists v e : string,
          s = (v ++ "-" ++ e)%string
          /\ hyphen_free e
          /\ Py.strip v <> EmptyString
          /\ (Py.lower (Py.strip e) = "true"%string
              \/ Py.lower (Py.strip e) = "false"%string)
          /\ o = [("text", VStr (Py.strip v));
                  ("isCorrect",
                   VBool (String.eqb (Py.lower (Py.strip e)) "true"))].
Proof.
  intros s o. split.
  - destruct (last_hyphen_cases s) as [Hs | (v & e & -> & He)].
    + rewrite (format_option_no_hyphen _ _ Hs). discriminate.
    + rewrite (format_option_objective v e He).
      destruct (String.eqb_spec (Py.strip v) EmptyString) as [_ | Hv];
        [discriminate |].
      destruct (String.eqb (Py.strip e) EmptyString); [discriminate |].
      simpl orb. cbv iota.
      destruct (String.eqb_spec (Py.lower (Py.strip e)) "true") as [Et | _].
      * intros H. injection H as <-. exists v, e.
        split; [reflexivity |]. split; [exact He |]. split; [exact Hv |].
        split; [now left |]. rewrite Et. reflexivity.
      * destruct (String.eqb_spec (Py.lower (Py.strip e)) "false")
          as [Ef | _]; [| discriminate].
        intros H. injection H as <-. exists v, e.
        split; [reflexivity |]. split; [exact He |]. split; [exact Hv |].
        split; [now right |]. rewrite Ef. reflexivity.
  - intros (v & e & -> & He & Hv & Hx & ->).
    rewrite (format_option_objective v e He).
    apply String.eqb_neq in Hv. rewrite Hv.
    assert (Hne : String.eqb (Py.strip e) EmptyString = false).
    { destruct (Py.strip e); [destruct Hx; discriminate | reflexivity]. }
    rewrite Hne. destruct Hx as [-> | ->]; reflexivity.
Qed.

(** X8: with [require_option_format] set and the quiz type [tag-based],
    a cell text is accepted exactly when it has a hyphen and neither the
    part before the last hyphen nor the part after it is blank; the option
    is then [{text, tag}] with the two parts trimmed. So a tag read from a
    cell is never empty, has no white space at its ends and has no
    hyphen. *)
Theorem strict_tag_cell_accepted_iff :
  forall (s : string) (o : dict),
    (format_option "tag-based" s = inr o
     <-> exists v e : string,
           s = (v ++ "-" ++ e)%string
           /\ hyphen_free e
           /\ Py.strip v <> EmptyString
           /\ Py.strip e <> EmptyString
           /\ o = [("text", VStr (Py.strip v)); ("tag", VStr (Py.strip e))])
    /\ (format_option "tag-based" s = inr o ->
        exists text tag : string,
          o = [("text", VStr text); ("tag", VStr tag)]
          /\ tag <> EmptyString /\ trimmed tag /\ hyphen_free tag).
Proof.
  intros s o.
  assert (Hiff :
            format_option "tag-based" s = inr o
            <-> exists v e : string,
                  s = (v ++ "-" ++ e)%string
                  /\ hyphen_free e
                  /\ Py.strip v <> EmptyString
                  /\ Py.strip e <> EmptyString
                  /\ o = [("text", VStr (Py.strip v));
                          ("tag", VStr (Py.strip e))]).
  { split.
    - destruct (last_hyphen_cases s) as [Hs | (v & e & -> & He)].
      + rewrite (format_option_no_hyphen _ _ Hs). discriminate.
      + rewrite (format_option_tag v e He).
        destruct (String.eqb_spec (Py.strip v) EmptyString) as [_ | Hv];
          [discriminate |].
        destruct (String.eqb_spec (Py.strip e) EmptyString) as [_ | Hx];
          [discriminate |].
        intros H. injection H as <-. exists v, e. repeat split; assumption.
    - intros (v & e & -> & He & Hv & Hx & ->).
      rewrite (format_option_tag v e He).
      apply String.eqb_neq in Hv, Hx. rewrite Hv, Hx. reflexivity. }
  split; [exact Hiff |].
  intros H. apply Hiff in H as (v & e & _ & He & _ & Hx & ->).
  exists (Py.strip v), (Py.strip e). split; [reflexivity |].
  split; [exact Hx |]. split; [apply strip_idem | exact (hyphen_free_strip e He)].
Qed.

(** ** Which strict cells are refused, and how *)

(** X9: with [require_option_format] set, a cell text whose part before
    the last hyphen or whose part after it is blank ends the request with
    the format error of its row and column, for either quiz type, with the
    reason "Empty value or property". *)
Theorem strict_cell_with_blank_part_fails :
  forall (type : string) (index : nat) (col v e : string),
    hyphen_free e ->
    Py.strip v = EmptyString \/ Py.strip e = EmptyString ->
    option_of_cell type true index col (v ++ "-" ++ e)
    = Exit
        (JSONResponse 400
           (VDict
              [("error",
                VStr ("Invalid option format in row "
                      ++ Py.str_nat (index + 2) ++ ", column '" ++ col
                      ++ "': '" ++ (v ++ "-" ++ e)
                      ++ "'. Error: Empty value or property"))])).
Proof.
  intros type index col v e He Hblank. unfold option_of_cell.
  rewrite (format_option_last_hyphen _ v e He). cbv zeta.
  replace (String.eqb (Py.strip v) EmptyString
           || String.eqb (Py.strip e) EmptyString) with true; [reflexivity |].
  symmetry. apply orb_true_iff.
  destruct Hblank as [-> | ->]; [left | right]; reflexivity.
Qed.

Lemma strict_cell_with_blank_part_fails_witness :
  option_of_cell "tag-based" true 0 "opt1" ("math " ++ "-" ++ "  ")
  = Exit
      (error_response
         "Invalid option format in row 2, column 'opt1': 'math -  '. Error: Empty value or property").
Proof.
  apply (strict_cell_with_blank_part_fails "tag-based" 0 "opt1" "math " "  ").
  - no_hyphen.
  - right. reflexivity.
Defined.

(** X10: with [require_option_format] set and the quiz type [objective],
    a cell text whose two parts are not blank but whose second part,
    trimmed and lowered, is neither [true] nor [false] ends the request
    with the format error of its row and column, with the reason
    "Property must be 'true' or 'false'". *)
Theorem strict_objective_cell_with_other_property_fails :
  forall (index : nat) (col v e : string),
    hyphen_free e ->
    Py.strip v <> EmptyString -> Py.strip e <> EmptyString ->
    Py.lower (Py.strip e) <> "true"%string ->
    Py.lower (Py.strip e) <> "false"%string ->
    option_of_cell "objective" true index col (v ++ "-" ++ e)
    = Exit
        (JSONResponse 400
           (VDict
              [("error",
                VStr ("Invalid option format in row "
                      ++ Py.str_nat (index + 2) ++ ", column '" ++ col
                      ++ "': '" ++ (v ++ "-" ++ e)
                      ++ "'. Error: Property must be 'true' or 'false'"))])).
Proof.
  intros index col v e He Hv Hx Ht Hf. unfold option_of_cell.
  rewrite (format_option_objective v e He).
  apply String.eqb_neq in Hv, Hx, Ht, Hf. rewrite Hv, Hx, Ht, Hf.
  reflexivity.
Qed.

Lemma strict_objective_cell_with_other_property_fails_witness :
  option_of_cell "objective" true 3 "opt2" ("Paris" ++ "-" ++ "yes")
  = Exit
      (error_response
         "Invalid option format in row 5, column 'opt2': 'Paris-yes'. Error: Property must be 'true' or 'false'").
Proof.
  apply (strict_objective_cell_with_other_property_fails 3 "opt2" "Paris" "yes");
    [no_hyphen | discriminate | discriminate | discriminate | discriminate].
Defined.

Lemma strict_objective_cell_accepted_iff_witness :
  format_option "objective" ("4 " ++ "-" ++ " True")
  = inr (objective_option "4" true).
Proof.
  apply (proj2 (strict_objective_cell_accepted_iff
                  ("4 " ++ "-" ++ " True") (objective_option "4" true))).
  exists "4 "%string, " True"%string.
  split; [reflexivity |]. split; [no_hyphen |]. split; [discriminate |].
  split; [left; reflexivity | reflexivity].
Defined.

Lemma strict_tag_cell_accepted_iff_witness :
  exists text tag : string,
    tag_option "urgent-math" "tag" = [("text", VStr text); ("tag", VStr tag)]
    /\ tag <> EmptyString /\ trimmed tag /\ hyphen_free tag.
Proof.
  apply (proj2 (strict_tag_cell_accepted_iff
                  "urgent-math-tag" (tag_option "urgent-math" "tag"))).
  reflexivity.
Defined.

(** ** Integer cells *)

Lemma digits_of_uint (d : Decimal.uint) (c : ascii) :
  In c (list_ascii_of_string (NilEmpty.string_of_uint d)) ->
  Py.isspace c = false /\ c <> "-"%char.
Proof.
  induction d as [| d IH | d IH | d IH | d IH | d IH | d IH | d IH | d IH
                  | d IH | d IH]; simpl;
    [contradiction | ..];
    (intros [<- | H]; [split; [reflexivity | discriminate] | exact (IH H)]).
Qed.

Lemma digits_of_nilzero (d : Decimal.uint) (c : ascii) :
  In c (list_ascii_of_string (NilZero.string_of_uint d)) ->
  Py.isspace c = false /\ c <> "-"%char.
Proof.
  destruct d; try exact (digits_of_uint _ c).
  simpl. intros [<- | []]. split; [reflexivity | discriminate].
Qed.

Lemma nilzero_not_empty (d : Decimal.uint) :
  NilZero.string_of_uint d <> EmptyString.
Proof.
  destruct d; discriminate.
Qed.

(** The text of an integer: digits, after a hyphen when it is negative. *)
Lemma str_int_cases (z : Z) :
  exists d : Decimal.uint,
    Py.str_int z = NilZero.string_of_uint d
    \/ Py.str_int z = String "-" (NilZero.string_of_uint d).
Proof.
  unfold Py.str_int.
  destruct z as [| p | p];
    [exists Decimal.zero; left | exists (Pos.to_uint p); left
     | exists (Pos.to_uint p); right]; reflexivity.
Qed.

Lemma strip_str_int (z : Z) : Py.strip (Py.str_int z) = Py.str_int z.
Proof.
  apply strip_no_space. intros c.
  destruct (str_int_cases z) as (d & [-> | ->]); simpl.
  - intros H. exact (proj1 (digits_of_nilzero d c H)).
  - intros [<- | H]; [reflexivity | exact (proj1 (digits_of_nilzero d c H))].
Qed.

(** X11: a cell that holds an integer is never blank, and with
    [require_option_format] set it always ends the request with the format
    error "Empty value or property", for either quiz type: the text of a
    non-negative integer has no hyphen, and that of a negative one has
    nothing before its only hyphen. *)
Theorem strict_integer_cell_fails :
  forall (type : string) (index : nat) (col : string) (z : Z),
    blank (Int z) = false
    /\ option_of_cell type true index col (Py.strip (str (Int z)))
       = Exit
           (JSONResponse 400
              (VDict
                 [("error",
                   VStr ("Invalid option format in row "
                         ++ Py.str_nat (index + 2) ++ ", column '" ++ col
                         ++ "': '" ++ Py.str_int z
                         ++ "'. Error: Empty value or property"))])).
Proof.
  intros type index col z. unfold blank. simpl isna. simpl str.
  rewrite strip_str_int. split.
  - simpl. apply String.eqb_neq.
    destruct (str_int_cases z) as (d & [-> | ->]);
      [apply nilzero_not_empty | discriminate].
  - unfold option_of_cell.
    destruct (str_int_cases z) as (d & [-> | ->]).
    + rewrite format_option_no_hyphen; [reflexivity |].
      intros c H. exact (proj2 (digits_of_nilzero d c H)).
    + change (String "-" (NilZero.string_of_uint d))
        with (EmptyString ++ "-" ++ NilZero.string_of_uint d)%string.
      rewrite format_option_last_hyphen; [reflexivity |].
      intros c H. exact (proj2 (digits_of_nilzero d c H)).
Qed.

(** ** The check for a correct answer *)

Lemma any_isCorrect_objective (options : list dict) :
  Forall objective_shape options ->
  any_isCorrect options = inr (existsb marked_correct options).
Proof.
  induction 1 as [| o options (text & b & ->) _ IH]; simpl; [reflexivity |].
  destruct b; [reflexivity | exact IH].
Qed.

Lemma marked_correct_In (options : list dict) :
  Forall objective_shape options ->
  existsb marked_correct options = true ->
  exists text : string, In (objective_option text true) options.
Proof.
  intros Hshape H. apply existsb_exists in H as (o & Ho & Hc).
  rewrite Forall_forall in Hshape.
  destruct (Hshape o Ho) as (text & b & ->).
  destruct b; [| discriminate]. exists text. exact Ho.
Qed.

(** X12: for an objective quiz, in either mode, the options a row gives
    all carry the key [isCorrect], so the test
    [any(option["isCorrect"] for option in options)] never raises: it is
    true exactly when some option of the row is marked correct. *)
Theorem correct_answer_check_never_raises :
  forall (require_option_format : bool) (index : nat) (row : Series)
         (cols : list string) (options : list dict),
    options_loop "objective" require_option_format index row cols []
    = Next options ->
    any_isCorrect options
    = inr (existsb
             (fun o =>
                match getitem "isCorrect" o with
                | Some (VBool true) => true
                | _ => false
                end)
             options).
Proof.
  intros rof index row cols options H.
  apply any_isCorrect_objective.
  exact (options_loop_objective _ _ _ _ _ _ (Forall_nil _) H).
Qed.

Lemma correct_answer_check_never_raises_witness :
  any_isCorrect [objective_option "4" false; objective_option "5" true]
  = inr true.
Proof.
  apply (correct_answer_check_never_raises true 0
           (series_of ["question"; "opt1"; "opt2"]%string
              [Text "What is 2+3?"; Text "4-false"; Text "5-TRUE"])
           ["question"; "opt1"; "opt2"]%string
           [objective_option "4" false; objective_option "5" true]).
  reflexivity.
Defined.

(** ** Invariants of the questions returned *)

Lemma rows_loop_invariant (P : value -> Prop) (type : string) (rof : bool)
    (cols : list string) :
  (forall index row questions questions',
      row_body type rof cols index row questions = Next questions' ->
      questions' = questions
      \/ exists q, P q /\ questions' = questions ++ [q]) ->
  forall rows questions questions',
    Forall P questions ->
    rows_loop type rof cols rows questions = Next questions' ->
    Forall P questions'.
Proof.
  intros Hbody rows.
  induction rows as [| [index row] rows IH]; intros questions questions' Hall;
    simpl.
  - intros H. injection H as <-. exact Hall.
  - destruct (row_body type rof cols index row questions) as [questions1 | r]
      eqn:E; [| discriminate].
    apply IH.
    destruct (Hbody _ _ _ _ E) as [-> | (q & Hq & ->)]; [exact Hall |].
    apply Forall_app. split; [exact Hall | now constructor].
Qed.

(** A success of the handler is the end of the loop over the rows of the
    frame that was read. *)
Lemma parse_quiz_excel_return
    (read_excel : list Byte.byte -> string + DataFrame) (file : UploadFile)
    (type : string) (rof : bool) (body : value) :
  parse_quiz_excel read_excel file type rof = Return body ->
  exists (df : DataFrame) (questions : list value),
    read_excel (contents file) = inr df
    /\ rows_loop type rof (columns df) (iterrows df) [] = Next questions
    /\ body = VDict [("questions", VList questions);
                     ("count", VInt (length questions))].
Proof.
  unfold parse_quiz_excel.
  destruct (negb _); [discriminate |].
  destruct (negb _); [discriminate |].
  destruct (read_excel (contents file)) as [e | df]; [discriminate |].
  destruct (negb _); [discriminate |].
  destruct (rows_loop type rof (columns df) (iterrows df) [])
    as [[| q questions] | r] eqn:E.
  - discriminate.
  - intros H. injection H as <-. exists df, (q :: questions).
    split; [reflexivity |]. split; [exact E | reflexivity].
  - intros ->.
    destruct (rows_loop_exit _ _ _ _ _ _ E) as (rest & [H | [H | H]]);
      discriminate H.
Qed.

Lemma row_body_strict_objective (cols : list string) (index : nat)
    (row : Series) (questions questions' : list value) :
  row_body "objective" true cols index row questions = Next questions' ->
  questions' = questions
  \/ exists q,
       (exists (text : string) (options : list dict),
           q = question_dict text options
           /\ Forall objective_shape options
           /\ exists t : string, In (objective_option t true) options)
       /\ questions' = questions ++ [q].
Proof.
  unfold row_body. destruct (_ || _).
  { intros H. injection H as <-. now left. }
  destruct (options_loop "objective" true index row cols [])
    as [[| o options] | r] eqn:E.
  - intros H. injection H as <-. now left.
  - pose proof (options_loop_objective _ _ _ _ _ _ (Forall_nil _) E) as Hshape.
    simpl andb. cbv iota. rewrite (any_isCorrect_objective _ Hshape).
    destruct (existsb marked_correct (o :: options)) eqn:Hc; [| discriminate].
    intros H. injection H as <-. right. eexists. split; [| reflexivity].
    eexists _, (o :: options). split; [reflexivity |].
    split; [exact Hshape | exact (marked_correct_In _ Hshape Hc)].
  - discriminate.
Qed.

(** X13: when the handler succeeds on an objective quiz with
    [require_option_format] set, every question it returns has only
    options of the form [{text, isCorrect}] and at least one of them has
    [isCorrect = true]. *)
Theorem strict_objective_questions_have_a_correct_option :
  forall (read_excel : list Byte.byte -> string + DataFrame)
         (file : UploadFile) (body : value),
    parse_quiz_excel read_excel file "objective" true = Return body ->
    exists questions : list value,
      body = VDict [("questions", VList questions);
                    ("count", VInt (length questions))]
      /\ Forall
           (fun q =>
              exists (text : string) (options : list dict),
                q = VDict [("question", VStr text);
                           ("options", VList (map VDict options))]
                /\ Forall
                     (fun o =>
                        exists (t : string) (b : bool),
                          o = [("text", VStr t); ("isCorrect", VBool b)])
                     options
                /\ exists t : string,
                     In [("text", VStr t); ("isCorrect", VBool true)] options)
           questions.
Proof.
  intros read_excel file body H.
  apply parse_quiz_excel_return in H as (df & questions & _ & Hloop & ->).
  exists questions. split; [reflexivity |].
  exact (rows_loop_invariant _ "objective" true (columns df)
           (row_body_strict_objective (columns df))
           _ _ _ (Forall_nil _) Hloop).
Qed.

Lemma strict_objective_questions_have_a_correct_option_witness :
  exists questions : list value,
    parse_quiz_excel (reads sheet_2plus2) (upload []) "objective" true
    = parsed questions
    /\ questions <> [].
Proof.
  destruct (strict_objective_questions_have_a_correct_option
              (reads sheet_2plus2) (upload [])
              (VDict
                 [("questions",
                   VList
                     [question_dict "What is 2+2?" [objective_option "4" true]]);
                  ("count", VInt 1)])
              eq_refl) as (questions & Hbody & _).
  exists questions. injection Hbody as <-. split; [reflexivity | discriminate].
Defined.

Lemma option_of_cell_text (type : string) (rof : bool) (index : nat)
    (col option_text : string) (o : dict) :
  option_text <> EmptyString -> trimmed option_text ->
  option_of_cell type rof index col option_text = Next o ->
  option_with_text o.
Proof.
  intros Hne Htrim. unfold option_of_cell. destruct rof.
  - unfold format_option. cbv zeta.
    destruct (String.eqb_spec
                (Py.strip
                   (Py.join "-"
                      (removelast (Py.rsplit1 "-"%char option_text))))
                EmptyString) as [_ | Hv]; [discriminate |].
    simpl orb. destruct (String.eqb _ EmptyString); [discriminate |].
    destruct (String.eqb type "objective").
    + destruct (negb _); [discriminate |].
      intros H. injection H as <-. eexists. split; [reflexivity |].
      split; [exact Hv | apply strip_idem].
    + intros H. injection H as <-. eexists. split; [reflexivity |].
      split; [exact Hv | apply strip_idem].
  - destruct (String.eqb type "objective"); intros H; injection H as <-;
      eexists; (split; [reflexivity |]); split; assumption.
Qed.

Lemma options_loop_text (type : string) (rof : bool) (index : nat)
    (row : Series) (cols : list string) (options options' : list dict) :
  Forall option_with_text options ->
  options_loop type rof index row cols options = Next options' ->
  Forall option_with_text options'.
Proof.
  revert options. induction cols as [| col cols IH]; intros options Hall; simpl.
  - intros H. injection H as <-. exact Hall.
  - destruct (String.eqb col "question"); [now apply IH |].
    destruct (isna (get row col NaN)); simpl orb; [now apply IH |].
    destruct (String.eqb_spec (Py.strip (str (get row col NaN))) EmptyString)
      as [_ | Hne]; [now apply IH |].
    destruct (option_of_cell type rof index col _) as [o | r] eqn:E;
      [| discriminate].
    apply IH. apply Forall_app. split; [exact Hall |].
    constructor; [| constructor].
    exact (option_of_cell_text _ _ _ _ _ _ Hne (strip_idem _) E).
Qed.

Lemma row_body_text (type : string) (rof : bool) (cols : list string)
    (index : nat) (row : Series) (questions questions' : list value) :
  row_body type rof cols index row questions = Next questions' ->
  questions' = questions
  \/ exists q,
       (exists (text : string) (options : list dict),
           q = question_dict text options
           /\ text <> EmptyString /\ trimmed text
           /\ Forall option_with_text options)
       /\ questions' = questions ++ [q].
Proof.
  unfold row_body.
  destruct (isna (get row "question" (Text EmptyString))); simpl orb.
  { intros H. injection H as <-. now left. }
  destruct (String.eqb_spec
              (Py.strip (str (get row "question" (Text EmptyString))))
              EmptyString) as [_ | Hne].
  { intros H. injection H as <-. now left. }
  destruct (options_loop type rof index row cols [])
    as [[| o options] | r] eqn:E.
  - intros H. injection H as <-. now left.
  - pose proof (options_loop_text _ _ _ _ _ _ _ (Forall_nil _) E) as Hall.
    assert (Hq : exists (text : string) (options0 : list dict),
               VDict
                 [("question",
                   VStr (Py.strip
                           (str (get row "question" (Text EmptyString)))));
                  ("options", VList (map VDict (o :: options)))]
               = question_dict text options0
               /\ text <> EmptyString /\ trimmed text
               /\ Forall option_with_text options0).
    { eexists _, (o :: options). split; [reflexivity |].
      split; [exact Hne |]. split; [apply strip_idem | exact Hall]. }
    destruct (String.eqb type "objective" && rof).
    + destruct (any_isCorrect (o :: options)) as [e | [|]]; try discriminate.
      intros H. injection H as <-. right. eexists. split; [exact Hq | reflexivity].
    + intros H. injection H as <-. right. eexists. split; [exact Hq | reflexivity].
  - discriminate.
Qed.

(** X14: when the handler succeeds, in either mode and for either quiz
    type, every question text and every option text it returns is not
    empty and has no white space at its ends. *)
Theorem returned_texts_are_trimmed :
  forall (read_excel : list Byte.byte -> string + DataFrame)
         (file : UploadFile) (type : string) (require_option_format : bool)
         (body : value),
    parse_quiz_excel read_excel file type require_option_format
    = Return body ->
    exists questions : list value,
      body = VDict [("questions", VList questions);
                    ("count", VInt (length questions))]
      /\ Forall
           (fun q =>
              exists (text : string) (options : list dict),
                q = VDict [("question", VStr text);
                           ("options", VList (map VDict options))]
                /\ text <> EmptyString /\ Py.strip text = text
                /\ Forall
                     (fun o =>
                        exists t : string,
                          getitem "text" o = Some (VStr t)
                          /\ t <> EmptyString /\ Py.strip t = t)
                     options)
           questions.
Proof.
  intros read_excel file type rof body H.
  apply parse_quiz_excel_return in H as (df & questions & _ & Hloop & ->).
  exists questions. split; [reflexivity |].
  exact (rows_loop_invariant _ type rof (columns df)
           (row_body_text type rof (columns df))
           _ _ _ (Forall_nil _) Hloop).
Qed.

Lemma returned_texts_are_trimmed_witness :
  exists questions : list value,
    parse_quiz_excel (reads sheet_paris) (upload []) "objective" false
    = parsed questions
    /\ questions <> [].
Proof.
  destruct (returned_texts_are_trimmed
              (reads sheet_paris) (upload []) "objective" false
              (VDict
                 [("questions",
                   VList
                     [question_dict "Capital of France?"
                        [objective_option "Paris" false;
                         objective_option "Lyon" false]]);
                  ("count", VInt 1)])
              eq_refl) as (questions & Hbody & _).
  exists questions. injection Hbody as <-. split; [reflexivity | discriminate].
Defined.

(** ** The handler of unexpected errors *)

Lemma options_loop_exit_format (type : string) (rof : bool) (index : nat)
    (row : Series) (cols : list string) (options : list dict) (r : response) :
  options_loop type rof index row cols options = Exit r ->
  exists rest : string,
    r = error_response ("Invalid option format in row " ++ rest).
Proof.
  revert options. induction cols as [| col cols IH]; intros options; simpl.
  - discriminate.
  - destruct (String.eqb col "question"); [apply IH |].
    destruct (_ || _); [apply IH |].
    unfold option_of_cell. destruct rof.
    + destruct (format_option type _) as [e | o]; [| apply IH].
      intros H. injection H as <-. eexists. reflexivity.
    + destruct (String.eqb type "objective"); apply IH.
Qed.

Lemma row_body_exit_kind (type : string) (rof : bool) (cols : list string)
    (index : nat) (row : Series) (questions : list value) (r : response) :
  row_body type rof cols index row questions = Exit r ->
  cell_or_answer_error r.
Proof.
  unfold row_body. destruct (_ || _); [discriminate |].
  destruct (options_loop type rof index row cols []) as [[| o options] | r']
    eqn:E.
  - discriminate.
  - destruct (String.eqb_spec type "objective") as [-> | _];
      [| simpl; discriminate].
    destruct rof; [| simpl; discriminate]. simpl andb. cbv iota.
    rewrite (any_isCorrect_objective (o :: options)
               (options_loop_objective _ _ _ _ _ _ (Forall_nil _) E)).
    destruct (existsb marked_correct (o :: options)); [discriminate |].
    intros H. injection H as <-. eexists. right. reflexivity.
  - intros H. injection H as <-.
    destruct (options_loop_exit_format _ _ _ _ _ _ _ E) as (rest & ->).
    exists rest. now left.
Qed.

Lemma rows_loop_exit_kind (type : string) (rof : bool) (cols : list string)
    (rows : list (nat * Series)) (questions : list value) (r : response) :
  rows_loop type rof cols rows questions = Exit r -> cell_or_answer_error r.
Proof.
  revert questions.
  induction rows as [| [index row] rows IH]; intros questions; simpl.
  - discriminate.
  - destruct (row_body type rof cols index row questions) as [questions' | r']
      eqn:E; [apply IH |].
    intros H. injection H as <-. exact (row_body_exit_kind _ _ _ _ _ _ _ E).
Qed.

(** X15: on a frame with scalar cells and distinct column labels, the
    handler of unexpected errors around the body of the row loop is never
    taken: no answer is the message "Error processing row ...". The only
    lookup by key in that body, [option["isCorrect"]], runs on options that
    all have the key. *)
Theorem no_unexpected_row_error :
  forall (read_excel : list Byte.byte -> string + DataFrame)
         (file : UploadFile) (type : string) (require_option_format : bool)
         (rest : string),
    parse_quiz_excel read_excel file type require_option_format
    <> JSONResponse 400
         (VDict [("error", VStr ("Error processing row " ++ rest))]).
Proof.
  intros read_excel file type rof rest. unfold parse_quiz_excel.
  destruct (negb _); [discriminate |].
  destruct (negb _); [discriminate |].
  destruct (read_excel (contents file)) as [e | df]; [discriminate |].
  destruct (negb _); [discriminate |].
  destruct (rows_loop type rof (columns df) (iterrows df) [])
    as [[| q questions] | r] eqn:E; try discriminate.
  destruct (rows_loop_exit_kind _ _ _ _ _ _ E) as (rest' & [-> | ->]);
    discriminate.
Qed.

(** ** Strict options follow the columns *)

Lemma options_loop_strict (type : string) (index : nat) (row : Series)
    (cols : list string) (options options' : list dict) :
  options_loop type true index row cols options = Next options' <->
  exists extra : list dict,
    options' = options ++ extra
    /\ Forall2
         (fun o col =>
            format_option type (Py.strip (str (get row col NaN))) = inr o)
         extra (option_cols row cols).
Proof.
  revert options. induction cols as [| col cols IH]; intros options; simpl.
  - split.
    + intros H. injection H as <-. exists []. rewrite app_nil_r.
      split; [reflexivity | constructor].
    + intros (extra & -> & H). inversion H. now rewrite app_nil_r.
  - destruct (String.eqb col "question"); simpl; [apply IH |].
    fold (blank (get row col NaN)).
    destruct (blank (get row col NaN)); simpl; [apply IH |].
    unfold option_of_cell.
    destruct (format_option type (Py.strip (str (get row col NaN))))
      as [e | o] eqn:E.
    + split; [discriminate |].
      intros (extra & _ & H). inversion H; subst. congruence.
    + rewrite IH. split.
      * intros (extra & -> & H). exists (o :: extra).
        rewrite <- app_assoc. split; [reflexivity |]. now constructor.
      * intros (extra & -> & H). inversion H as [| o' ? extra' ? Ho Hrest];
          subst.
        assert (o' = o) by congruence. subst o'.
        exists extra'. rewrite <- app_assoc. split; [reflexivity | exact Hrest].
Qed.

(** X16: with [require_option_format] set, the loop over the columns of a
    row ends with a list of options exactly when every non-blank cell of a
    column other than [question] has an accepted text, and the options are
    then those of these cells, one for one, in column order. *)
Theorem strict_options_follow_columns :
  forall (type : string) (index : nat) (row : Series) (cols : list string)
         (options : list dict),
    options_loop type true index row cols [] = Next options
    <-> Forall2
          (fun o col =>
             format_option type (Py.strip (str (get row col NaN))) = inr o)
          options
          (filter (fun col => negb (String.eqb col "question")
                              && negb (blank (get row col NaN))) cols).
Proof.
  intros type index row cols options.
  rewrite options_loop_strict. simpl app. split.
  - intros (extra & -> & H). exact H.
  - intros H. exists options. split; [reflexivity | exact H].
Qed.

Lemma strict_options_follow_columns_witness :
  options_loop "tag-based" true 0
    (series_of ["topic"; "question"; "level"]%string
       [Text "algebra-math"; Text "Solve x+1=2"; Text " easy - level "])
    ["topic"; "question"; "level"]%string []
  = Next [tag_option "algebra" "math"; tag_option "easy" "level"].
Proof.
  apply (proj2 (strict_options_follow_columns "tag-based" 0
                  (series_of ["topic"; "question"; "level"]%string
                     [Text "algebra-math"; Text "Solve x+1=2";
                      Text " easy - level "])
                  ["topic"; "question"; "level"]%string
                  [tag_option "algebra" "math"; tag_option "easy" "level"])).
  repeat constructor.
Defined.

(** ** A cell that ends the request *)

(** X17: when the loops reach a cell (the rows before its row and the
    columns before its column did not end the request, the question of its
    row is not blank, the cell is not blank and its column is not
    [question]) and that cell is refused, the answer of the handler is the
    response built for that cell, whatever the cells, columns and rows
    after it and whatever was parsed before. *)
Theorem refused_cell_ends_the_request :
  forall (read_excel : list Byte.byte -> string + DataFrame)
         (file : UploadFile) (type : string) (require_option_format : bool)
         (df : DataFrame)
         (before after : list (list cell)) (cells : list cell)
         (questions : list value)
         (cols_before cols_after : list string) (col : string)
         (options : list dict) (r : response),
    excel_upload file -> quiz_type type ->
    read_excel (contents file) = inr df ->
    In "question"%string (columns df) ->
    data df = before ++ cells :: after ->
    columns df = cols_before ++ col :: cols_after ->
    let index := length before in
    let row := series_of (columns df) cells in
    rows_loop type require_option_format (columns df)
      (iterrows_from 0 (columns df) before) [] = Next questions ->
    blank (get row "question" (Text EmptyString)) = false ->
    options_loop type require_option_format index row cols_before []
    = Next options ->
    col <> "question"%string ->
    blank (get row col NaN) = false ->
    option_of_cell type require_option_format index col
      (Py.strip (str (get row col NaN))) = Exit r ->
    parse_quiz_excel read_excel file type require_option_format = r.
Proof.
  intros read_excel file type rof df before after cells questions
    cols_before cols_after col options r Hfile Htype Hread Hq Hdata Hcols
    index row Hbefore Hquestion Hoptions Hcol Hcell Hexit.
  rewrite (parse_quiz_excel_rows read_excel file type rof df) by assumption.
  unfold iterrows. rewrite Hdata.
  rewrite (rows_loop_reach _ _ _ _ _ _ _ Hbefore).
  fold index. fold row.
  rewrite (row_body_options _ _ _ _ _ _ Hquestion).
  replace (options_loop type rof index row (columns df) [])
    with (options_loop type rof index row (cols_before ++ col :: cols_after) [])
    by (rewrite <- Hcols; reflexivity).
  rewrite options_loop_app, Hoptions.
  rewrite (options_loop_cell _ _ _ _ _ _ _ Hcol Hcell), Hexit. reflexivity.
Qed.

Lemma refused_cell_ends_the_request_witness :
  parse_quiz_excel (reads sheet_yes) (upload []) "objective" true
  = error_response
      "Invalid option format in row 3, column 'opt2': 'Lyon-yes'. Error: Property must be 'true' or 'false'".
Proof.
  apply (refused_cell_ends_the_request
           (reads sheet_yes) (upload []) "objective" true sheet_yes
           [[Text "4-true"; Text "What is 2+2?"; Text "5-false"]]
           [[Text "never read"; Text "plain"; Text "plain"]]
           [Text "Paris-true"; Text "Capital of France?"; Text "Lyon-yes"]
           [question_dict "What is 2+2?"
              [objective_option "4" true; objective_option "5" false]]
           ["opt1"; "question"]%string [] "opt2"
           [objective_option "Paris" true]).
  - apply xlsx_upload.
  - now left.
  - reflexivity.
  - simpl; auto.
  - reflexivity.
  - reflexivity.
  - reflexivity.
  - reflexivity.
  - reflexivity.
  - discriminate.
  - reflexivity.
  - reflexivity.
Defined.

(** ** Where an error comes from *)

Lemma format_option_reason (type s e : string) :
  format_option type s = inl e ->
  e = "Empty value or property"%string
  \/ e = "Property must be 'true' or 'false'"%string.
Proof.
  unfold format_option. cbv zeta.
  destruct (_ || _); [intros H; injection H as <-; now left |].
  destruct (String.eqb type "objective"); [| discriminate].
  destruct (negb _); [| discriminate].
  intros H. injection H as <-. now right.
Qed.

Lemma options_loop_exit_cell (type : string) (rof : bool) (index : nat)
    (row : Series) (cols : list string) (options : list dict) (r : response) :
  options_loop type rof index row cols options = Exit r ->
  exists col e : string,
    In col cols /\ col <> "question"%string /\ rof = true
    /\ (e = "Empty value or property"%string
        \/ e = "Property must be 'true' or 'false'"%string)
    /\ r = format_error index col (Py.strip (str (get row col NaN))) e.
Proof.
  revert options. induction cols as [| col cols IH]; intros options; simpl.
  - discriminate.
  - assert (Hrest : forall options0,
               options_loop type rof index row cols options0 = Exit r ->
               exists col0 e : string,
                 (col = col0 \/ In col0 cols) /\ col0 <> "question"%string
                 /\ rof = true
                 /\ (e = "Empty value or property"%string
                     \/ e = "Property must be 'true' or 'false'"%string)
                 /\ r = format_error index col0
                          (Py.strip (str (get row col0 NaN))) e).
    { intros options0 H.
      destruct (IH options0 H) as (col0 & e & Hin & Hrest).
      exists col0, e. split; [right; exact Hin | exact Hrest]. }
    destruct (String.eqb_spec col "question") as [_ | Hcol]; [apply Hrest |].
    destruct (_ || _); [apply Hrest |].
    unfold option_of_cell. destruct rof.
    + destruct (format_option type _) as [e | o] eqn:E; [| apply Hrest].
      intros H. injection H as <-. exists col, e.
      split; [now left |]. split; [exact Hcol |]. split; [reflexivity |].
      split; [exact (format_option_reason _ _ _ E) | reflexivity].
    + destruct (String.eqb type "objective"); apply Hrest.
Qed.

Lemma row_body_exit_cases (type : string) (rof : bool) (cols : list string)
    (index : nat) (row : Series) (questions : list value) (r : response) :
  row_body type rof cols index row questions = Exit r ->
  rof = true
  /\ ((exists col e : string,
          In col cols /\ col <> "question"%string
          /\ (e = "Empty value or property"%string
              \/ e = "Property must be 'true' or 'false'"%string)
          /\ r = format_error index col (Py.strip (str (get row col NaN))) e)
      \/ (type = "objective"%string /\ r = answer_error index)).
Proof.
  unfold row_body. destruct (_ || _); [discriminate |].
  destruct (options_loop type rof index row cols []) as [[| o options] | r']
    eqn:E.
  - discriminate.
  - destruct (String.eqb_spec type "objective") as [-> | _];
      [| simpl; discriminate].
    destruct rof; [| simpl; discriminate]. simpl andb. cbv iota.
    rewrite (any_isCorrect_objective (o :: options)
               (options_loop_objective _ _ _ _ _ _ (Forall_nil _) E)).
    destruct (existsb marked_correct (o :: options)); [discriminate |].
    intros H. injection H as <-. split; [reflexivity |]. right.
    split; reflexivity.
  - intros H. injection H as <-.
    destruct (options_loop_exit_cell _ _ _ _ _ _ _ E)
      as (col & e & Hin & Hcol & Hrof & He & ->).
    split; [exact Hrof |]. left. exists col, e. repeat split; assumption.
Qed.

Lemma rows_loop_exit_cases (type : string) (rof : bool) (cols : list string)
    (rows : list (list cell)) (start : nat) (questions : list value)
    (r : response) :
  rows_loop type rof cols (iterrows_from start cols rows) questions = Exit r ->
  exists (i : nat) (cells : list cell),
    nth_error rows i = Some cells
    /\ rof = true
    /\ ((exists col e : string,
            In col cols /\ col <> "question"%string
            /\ (e = "Empty value or property"%string
                \/ e = "Property must be 'true' or 'false'"%string)
            /\ r = format_error (start + i) col
                     (Py.strip (str (get (series_of cols cells) col NaN))) e)
        \/ (type = "objective"%string /\ r = answer_error (start + i))).
Proof.
  revert start questions.
  induction rows as [| cells rows IH]; intros start questions; simpl.
  - discriminate.
  - destruct (row_body type rof cols start (series_of cols cells) questions)
      as [questions' | r'] eqn:E.
    + intros H. destruct (IH _ _ H) as (i & cells' & Hnth & Hrest).
      exists (S i), cells'. split; [exact Hnth |].
      rewrite <- Nat.add_succ_comm. exact Hrest.
    + intros H. injection H as <-. exists 0, cells.
      split; [reflexivity |]. rewrite Nat.add_0_r.
      exact (row_body_exit_cases _ _ _ _ _ _ _ E).
Qed.

(** X18: every error of the handler is one of six: the file type, the
    quiz type, the reading error with the text of the exception, the
    missing [question] column, the absence of any question, or an error of
    a row. An error of a row arises only with [require_option_format] set
    and names the number, index + 2, of a row of the frame: either the
    format error of a cell of that row, which names a column of the frame
    other than [question], echoes the trimmed text of the cell and gives
    one of two reasons; or, for an objective quiz, the missing correct
    answer. *)
Theorem every_error_has_a_source :
  forall (read_excel : list Byte.byte -> string + DataFrame)
         (file : UploadFile) (type : string) (require_option_format : bool)
         (msg : string),
    parse_quiz_excel read_excel file type require_option_format
    = JSONResponse 400 (VDict [("error", VStr msg)]) ->
    msg = "Invalid file type. Only Excel files are allowed."%string
    \/ msg = "Invalid quiz type. Must be 'objective' or 'tag'."%string
    \/ (exists e : string,
           read_excel (contents file) = inl e
           /\ msg = ("Error reading Excel file: " ++ e)%string)
    \/ (exists df : DataFrame,
           read_excel (contents file) = inr df
           /\ (msg = "Excel file must contain a 'question' column."%string
               \/ msg = "No valid questions found in the Excel file."%string
               \/ (exists (index : nat) (cells : list cell) (col e : string),
                      nth_error (data df) index = Some cells
                      /\ require_option_format = true
                      /\ In col (columns df) /\ col <> "question"%string
                      /\ (e = "Empty value or property"%string
                          \/ e = "Property must be 'true' or 'false'"%string)
                      /\ msg
                         = ("Invalid option format in row "
                            ++ Py.str_nat (index + 2) ++ ", column '" ++ col
                            ++ "': '"
                            ++ Py.strip
                                 (str (get (series_of (columns df) cells)
                                         col NaN))
                            ++ "'. Error: " ++ e)%string)
               \/ (exists (index : nat) (cells : list cell),
                      nth_error (data df) index = Some cells
                      /\ require_option_format = true
                      /\ type = "objective"%string
                      /\ msg
                         = ("Objective question in row "
                            ++ Py.str_nat (index + 2)
                            ++ " must have at least one correct answer.")%string))).
Proof.
  intros read_excel file type rof msg. unfold parse_quiz_excel.
  destruct (negb _); [intros H; injection H as <-; now left |].
  destruct (negb _); [intros H; injection H as <-; right; now left |].
  destruct (read_excel (contents file)) as [e | df].
  { intros H. injection H as <-. right. right. left.
    exists e. split; reflexivity. }
  destruct (negb _).
  { intros H. injection H as <-. do 3 right.
    exists df. split; [reflexivity | now left]. }
  unfold iterrows.
  destruct (rows_loop type rof (columns df)
              (iterrows_from 0 (columns df) (data df)) [])
    as [[| q questions] | r] eqn:E.
  - intros H. injection H as <-. do 3 right.
    exists df. split; [reflexivity |]. right. now left.
  - discriminate.
  - intros ->. do 3 right. exists df. split; [reflexivity |].
    destruct (rows_loop_exit_cases _ _ _ _ _ _ _ E)
      as (i & cells & Hnth & Hrof
          & [(col & e & Hin & Hcol & He & Hr) | (Htype & Hr)]).
    + right. right. left. exists i, cells, col, e.
      injection Hr as ->. repeat split; assumption.
    + right. right. right. exists i, cells.
      injection Hr as ->. repeat split; assumption.
Qed.

Lemma every_error_has_a_source_witness :
  exists (index : nat) (cells : list cell) (col : string),
    nth_error (data sheet_plain) index = Some cells
    /\ In col (columns sheet_plain) /\ col <> "question"%string.
Proof.
  destruct (every_error_has_a_source
              (reads sheet_plain) (upload []) "objective" true
              "Invalid option format in row 3, column 'opt2': 'plainoption'. Error: Empty value or property"
              eq_refl)
    as [H | [H | [(e & H & _) | (df & Hdf & H)]]]; try discriminate H.
  injection Hdf as <-.
  destruct H as [H | [H | [H | H]]]; try discriminate H.
  - destruct H as (index & cells & col & e & Hnth & _ & Hin & Hcol & _).
    exists index, cells, col. repeat split; assumption.
  - destruct H as (index & cells & _ & _ & _ & H). discriminate H.
Defined.

(** ** The two modes on the same sheet *)

Lemma parse_quiz_excel_return_guards
    (read_excel : list Byte.byte -> string + DataFrame) (file : UploadFile)
    (type : string) (rof : bool) (body : value) :
  parse_quiz_excel read_excel file type rof = Return body ->
  excel_upload file /\ quiz_type type
  /\ exists df : DataFrame,
       read_excel (contents file) = inr df
       /\ In "question"%string (columns df).
Proof.
  unfold parse_quiz_excel.
  destruct (content_type file) as [t |] eqn:Et; [| discriminate].
  destruct (Py.mem t allowed_types) eqn:Hfile; [| discriminate].
  destruct (Py.mem type ["objective"; "tag-based"]%string) eqn:Htype;
    [| discriminate].
  destruct (read_excel (contents file)) as [e | df]; [discriminate |].
  destruct (Py.mem "question" (columns df)) eqn:Hq; [| discriminate].
  intros _. split.
  - exists t. split; [exact Et | now apply mem_In].
  - split.
    + apply mem_In in Htype. simpl in Htype.
      destruct Htype as [<- | [<- | []]]; [now left | now right].
    + exists df. split; [reflexivity | now apply mem_In].
Qed.

Lemma lenient_questions_length (type : string) (cols : list string)
    (rows : list (list cell)) :
  length (lenient_questions type cols rows)
  = length (filter (usable cols) rows).
Proof.
  unfold lenient_questions.
  induction rows as [| cells rows IH]; simpl; [reflexivity |].
  destruct (usable cols cells); simpl; now rewrite IH.
Qed.

(** X19: a request that succeeds with [require_option_format] set also
    succeeds with it unset, with the same number of questions: the strict
    format only ever refuses sheets, it never makes the handler read more
    rows. *)
Theorem strict_success_is_lenient_success :
  forall (read_excel : list Byte.byte -> string + DataFrame)
         (file : UploadFile) (type : string) (body : value),
    parse_quiz_excel read_excel file type true = Return body ->
    exists questions questions' : list value,
      body = VDict [("questions", VList questions);
                    ("count", VInt (length questions))]
      /\ parse_quiz_excel read_excel file type false
         = Return (VDict [("questions", VList questions');
                          ("count", VInt (length questions'))])
      /\ length questions' = length questions.
Proof.
  intros read_excel file type body H.
  destruct (parse_quiz_excel_return_guards _ _ _ _ _ H)
    as (Hfile & Htype & df & Hread & Hq).
  rewrite (parse_quiz_excel_rows read_excel file type true df) in H
    by assumption.
  rewrite (parse_quiz_excel_rows read_excel file type false df)
    by assumption.
  unfold iterrows in *. rewrite rows_loop_lenient. simpl app.
  destruct (rows_loop type true (columns df)
              (iterrows_from 0 (columns df) (data df)) [])
    as [[| q questions] | r] eqn:E.
  - discriminate H.
  - injection H as <-.
    apply rows_loop_usable in E as (extra & Hextra & Hrows).
    simpl app in Hextra. subst extra. apply Forall2_length in Hrows.
    pose proof (lenient_questions_length type (columns df) (data df)) as Hlen.
    rewrite <- Hrows in Hlen.
    exists (q :: questions), (lenient_questions type (columns df) (data df)).
    split; [reflexivity |]. split; [| exact Hlen].
    destruct (lenient_questions type (columns df) (data df));
      [discriminate Hlen | reflexivity].
  - destruct (rows_loop_exit _ _ _ _ _ _ E) as (rest & [Hr | [Hr | Hr]]);
      rewrite Hr in H; discriminate H.
Qed.

Lemma strict_success_is_lenient_success_witness :
  exists questions' : list value,
    parse_quiz_excel (reads sheet_2plus2) (upload []) "objective" false
    = parsed questions'
    /\ length questions' = 1.
Proof.
  destruct (strict_success_is_lenient_success
              (reads sheet_2plus2) (upload []) "objective"
              (VDict
                 [("questions",
                   VList
                     [question_dict "What is 2+2?" [objective_option "4" true]]);
                  ("count", VInt 1)])
              eq_refl) as (questions & questions' & Hbody & Hlenient & Hlen).
  exists questions'. split; [exact Hlenient |].
  injection Hbody as <-. exact Hlen.
Defined.
